(** * silverpop: the request-submission protocol of [silverpop/api.py]

    A shallow embedding of the class [API] of [src/silverpop/api.py]:
    the session state ([__init__], [login]), the submission routine
    ([_submit_request]) with its single re-authentication retry, and the
    result post-processing ([_sanitize_columns_in_api_result]).

    Python objects are modelled by the type [value]; Python exceptions by
    the type [exn]; a method of [API] is a function in the monad [M], which
    threads the instance, the network and the list of requests sent so far
    and which keeps the state reached when an exception is raised. *)

From Stdlib Require Import String Ascii List ZArith Bool Lia.
From Stdlib Require Import DecimalString.
Import ListNotations.

Set Warnings "-register-all".
Local Open Scope string_scope.
Local Open Scope list_scope.

(** ** Python values *)

(** The hashable scalars that occur in payloads and decoded documents:
    [None], integers and strings.  A string is a sequence of bytes. *)
Inductive scalar : Type :=
| SNone
| SInt (z : Z)
| SStr (s : string).

(** A Python object: a scalar, a [dict] (insertion-ordered, keyed by
    scalars) or a [list]. *)
Inductive value : Type :=
| VScalar (a : scalar)
| VDict (d : list (scalar * value))
| VList (l : list value).

Abbreviation VNone := (VScalar SNone).
Abbreviation VStr s := (VScalar (SStr s)).
Abbreviation VInt z := (VScalar (SInt z)).

Definition dict : Type := list (scalar * value).

(** Python's [==] on scalars. *)
Definition scalar_eqb (a b : scalar) : bool :=
  match a, b with
  | SNone, SNone => true
  | SInt x, SInt y => Z.eqb x y
  | SStr s, SStr t => String.eqb s t
  | _, _ => false
  end.

(** ** Python exceptions *)

(** Modelled from the spec: [AuthException] and [ResponseException] are
    the classes of [silverpop/exceptions.py], which is not among the
    sources; the first is the specification's AuthenticationFailed, the
    second its RemoteFault, which carries the full [Fault] sub-tree it
    is built from and hands it back as [exc.fault].  The other
    constructors are exceptions of Python, of [ElementTree] and of
    [requests]. *)
Inductive exn : Type :=
| AttributeError
| KeyError (k : scalar)
| TypeError
| RecursionError
| ParseError
| ConnectionError
| HTTPError (status : Z)
| AuthException
| ResponseException (fault : value).

(** An expression either raises or yields a value. *)
Definition result (A : Type) : Type := (exn + A)%type.

Definition ok {A} (a : A) : result A := inr a.
Definition throw {A} (e : exn) : result A := inl e.

Definition rbind {A B} (r : result A) (k : A -> result B) : result B :=
  match r with
  | inl e => inl e
  | inr a => k a
  end.

Declare Scope result_scope.
Delimit Scope result_scope with result.
Notation "'let?' x ':=' e 'in' k" := (rbind e (fun x => k))
  (at level 10, x name, e at level 100, k at level 200) : result_scope.
Local Open Scope result_scope.

(** ** Dictionaries *)

Module Dict.

(** [d.get(k)] as an option: the first entry whose key equals [k]. *)
Fixpoint lookup (d : dict) (k : scalar) : option value :=
  match d with
  | [] => None
  | (k', v) :: d' => if scalar_eqb k' k then Some v else lookup d' k
  end.

(** [d[k] = v]: an existing key keeps its position, a new key is
    appended. *)
Fixpoint setitem (d : dict) (k : scalar) (v : value) : dict :=
  match d with
  | [] => [(k, v)]
  | (k', v') :: d' =>
      if scalar_eqb k' k then (k', v) :: d' else (k', v') :: setitem d' k v
  end.

Definition keys (d : dict) : list scalar := map fst d.

End Dict.

(** ** Operations of Python objects used by [api.py] *)

(** [v.get(k, default)]: only a [dict] has the method. *)
Definition py_get (v : value) (k : string) (default : value) : result value :=
  match v with
  | VDict d =>
      match Dict.lookup d (SStr k) with
      | Some x => ok x
      | None => ok default
      end
  | _ => throw AttributeError
  end.

(** [v[k]] for a string key [k]. *)
Definition py_getitem (v : value) (k : string) : result value :=
  match v with
  | VDict d =>
      match Dict.lookup d (SStr k) with
      | Some x => ok x
      | None => throw (KeyError (SStr k))
      end
  | _ => throw TypeError
  end.

(** [v[k] = x] for a string key [k]. *)
Definition py_setitem (v : value) (k : string) (x : value) : result value :=
  match v with
  | VDict d => ok (VDict (Dict.setitem d (SStr k) x))
  | _ => throw TypeError
  end.

(** [out[k] = x] on a dict [out], where the key [k] is any object: a
    [dict] or a [list] is unhashable. *)
Definition dict_store (out : dict) (k : value) (x : value) : result dict :=
  match k with
  | VScalar a => ok (Dict.setitem out a x)
  | _ => throw TypeError
  end.

(** [len(v)]. *)
Definition py_len (v : value) : result Z :=
  match v with
  | VDict d => ok (Z.of_nat (List.length d))
  | VList l => ok (Z.of_nat (List.length l))
  | VStr s => ok (Z.of_nat (String.length s))
  | _ => throw TypeError
  end.

(** The items a [for] loop over [v] visits. *)
Definition py_iter (v : value) : result (list value) :=
  match v with
  | VList l => ok l
  | VDict d => ok (map (fun kv => VScalar (fst kv)) d)
  | VStr s => ok (map (fun c => VStr (String c EmptyString)) (list_ascii_of_string s))
  | _ => throw TypeError
  end.

(** Truth value of an object in a condition. *)
Definition truthy (v : value) : bool :=
  match v with
  | VNone => false
  | VInt z => negb (Z.eqb z 0)
  | VStr s => negb (String.eqb s "")
  | VDict d => match d with [] => false | _ => true end
  | VList l => match l with [] => false | _ => true end
  end.

(** [str.lower()] on bytes: the letters [A]..[Z] are mapped to
    [a]..[z]. *)
Definition lower_ascii (c : ascii) : ascii :=
  let n := nat_of_ascii c in
  if (65 <=? n)%nat && (n <=? 90)%nat then ascii_of_nat (n + 32) else c.

Fixpoint lower (s : string) : string :=
  match s with
  | EmptyString => EmptyString
  | String c s' => String (lower_ascii c) (lower s')
  end.

(** [v.lower()]: only a string has the method. *)
Definition py_lower (v : value) : result string :=
  match v with
  | VStr s => ok (lower s)
  | _ => throw AttributeError
  end.

(** [x in ('true', 'success')]. *)
Definition in_true_success (s : string) : bool :=
  String.eqb s "true" || String.eqb s "success".

(** [v == str(140)]. *)
Definition eq_str_140 (v : value) : bool :=
  match v with
  | VStr s => String.eqb s "140"
  | _ => false
  end.

(** ** Result post-processing *)

(** One round of the loop body [out[column['NAME']] = column['VALUE']]:
    Python evaluates the right-hand side first. *)
Definition store_column (out : dict) (column : value) : result dict :=
  let? v := py_getitem column "VALUE" in
  let? k := py_getitem column "NAME" in
  dict_store out k v.

Fixpoint store_columns (out : dict) (columns : list value) : result dict :=
  match columns with
  | [] => ok out
  | column :: rest =>
      let? out' := store_column out column in
      store_columns out' rest
  end.

(** [API._sanitize_columns_in_api_result].  The method updates [data] in
    place and returns it; the updated object is the result here. *)
Definition _sanitize_columns_in_api_result (data : value) : result value :=
  let? c := py_get data "COLUMNS" (VDict []) in
  let? columns := py_get c "COLUMN" (VList []) in
  let? n := py_len columns in
  if (n <? 1)%Z then ok data
  else
    let? out :=
      match columns with
      | VDict _ => store_column [] columns
      | _ => let? items := py_iter columns in store_columns [] items
      end in
    py_setitem data "COLUMNS" (VDict out).

(** ** The HTTP collaborator and the session state *)

(** What [requests.post] returns: the status and the body of the reply. *)
Record Response : Type := { status_code : Z; content : string }.

(** [response.raise_for_status()]: [requests] raises [HTTPError] for the
    client and server error statuses. *)
Definition raise_for_status (r : Response) : result unit :=
  if (400 <=? status_code r)%Z && (status_code r <? 600)%Z
  then throw (HTTPError (status_code r))
  else ok tt.

(** The arguments of one call of [requests.post]. *)
Record Request : Type :=
  { req_url : string; req_data : value; req_headers : list (string * string) }.

(** The fields of an [API] instance. *)
Record API : Type :=
  { url : string; username : value; password : value; sessionid : value }.

(** The instance, the network behind [requests], and the requests posted
    so far (oldest first). *)
Record state (W : Type) : Type :=
  { self : API; net : W; sent : list Request }.
Arguments self {W} _.
Arguments net {W} _.
Arguments sent {W} _.
Arguments Build_state {W} _ _ _.

Definition with_sessionid (a : API) (v : value) : API :=
  {| url := url a; username := username a; password := password a;
     sessionid := v |}.

(** [_get_xml_document]. *)
Definition _get_xml_document : value :=
  VDict [(SStr "Envelope", VDict [(SStr "Body", VDict [])])].

(** [xml['Envelope']['Body'] = body]. *)
Definition set_body (xml body : value) : result value :=
  let? envelope := py_getitem xml "Envelope" in
  let? envelope' := py_setitem envelope "Body" body in
  py_setitem xml "Envelope" envelope'.

(** The payload [login] builds. *)
Definition login_body (u p : value) : value :=
  VDict [(SStr "Login", VDict [(SStr "USERNAME", u); (SStr "PASSWORD", p)])].

(** The header every request carries. *)
Definition xml_headers : list (string * string) :=
  [("Content-Type", "text/xml;charset=utf-8")].

(** [success = response.get('RESULT', {}).get('SUCCESS', 'false').lower()
    in ('true', 'success')]. *)
Definition classify_success (response : value) : result bool :=
  let? r := py_get response "RESULT" (VDict []) in
  let? s := py_get r "SUCCESS" (VStr "false") in
  let? l := py_lower s in
  ok (in_true_success l).

(** [exc.fault.get('detail', {}).get('error', {}).get('errorid', None)]. *)
Definition fault_error_id (fault : value) : result value :=
  let? d := py_get fault "detail" (VDict []) in
  let? e := py_get d "error" (VDict []) in
  py_get e "errorid" VNone.

(** [return self._sanitize_columns_in_api_result(response['RESULT']),
    success]. *)
Definition return_result (response : value) (success : bool)
  : result (value * bool) :=
  let? r := py_getitem response "RESULT" in
  let? data := _sanitize_columns_in_api_result r in
  ok (data, success).

(** ** The monad of the methods of [API] *)

Definition M (W A : Type) : Type := state W -> state W * result A.

Definition ret {W A} (a : A) : M W A := fun st => (st, inr a).
Definition raise {W A} (e : exn) : M W A := fun st => (st, inl e).
Definition lift {W A} (r : result A) : M W A := fun st => (st, r).
Definition bind {W A B} (m : M W A) (k : A -> M W B) : M W B :=
  fun st =>
    match m st with
    | (st', inl e) => (st', inl e)
    | (st', inr a) => k a st'
    end.

Declare Scope api_scope.
Delimit Scope api_scope with api.
Notation "x <- m ;; k" := (bind m (fun x => k))
  (at level 61, m at next level, right associativity) : api_scope.
Notation "m ;; k" := (bind m (fun _ => k))
  (at level 61, right associativity) : api_scope.
Local Open Scope api_scope.

Definition get_self {W} : M W API := fun st => (st, inr (self st)).

(** [self.sessionid = v]. *)
Definition set_sessionid {W} (v : value) : M W unit :=
  fun st =>
    (Build_state (with_sessionid (self st) v) (net st) (sent st), inr tt).

(** The collaborators of [api.py] that live outside it, over the state [W]
    of the network. *)
Class Collaborators (W : Type) : Type :=
  { (** [requests.post(url, data=..., headers=...)]: the reply or a
        connection error, and the network after the call. *)
    requests_post : W -> Request -> W * result Response;
    (** [ElementTree.tostring(ConvertDictToXml(xml_dict))], of
        [silverpop/xml.py] and the standard library. *)
    ConvertDictToXml : value -> result string;
    (** [ConvertXmlToDict(content, dict)], of [silverpop/xml.py]. *)
    ConvertXmlToDict : string -> result value;
    (** [repr] of a container, as the [%s] directive prints it. *)
    py_repr : value -> string }.

Section Client.

Context {W : Type} {C : Collaborators W}.

(** The [%s] directive. *)
Definition py_str (v : value) : string :=
  match v with
  | VStr s => s
  | VNone => "None"
  | VInt z => NilZero.string_of_int (Z.to_int z)
  | _ => py_repr v
  end.

(** One call of [requests.post], recorded in [sent]. *)
Definition post (rq : Request) : M W Response :=
  fun st =>
    let (w, r) := requests_post (net st) rq in
    (Build_state (self st) w (sent st ++ [rq]), r).

(** [xml = ElementTree.tostring(ConvertDictToXml(xml_dict))] unless
    [raw_xml], in which case [xml = xml_dict]. *)
Definition request_body (xml_dict : value) (raw_xml : bool) : result value :=
  if negb raw_xml
  then let? s := ConvertDictToXml xml_dict in ok (VStr s)
  else ok xml_dict.

(** [url = '%s;jsessionid=%s' % (self.url, self.sessionid) if not auth
    else self.url]. *)
Definition target_url (a : API) (auth : bool) : string :=
  if negb auth
  then url a ++ ";jsessionid=" ++ py_str (sessionid a)
  else url a.

(** The first half of [_submit_request]: encode, post, check the
    status, decode and descend to [Envelope.Body]. *)
Definition exchange (xml_dict : value) (auth raw_xml : bool) : M W value :=
  xml <- lift (request_body xml_dict raw_xml) ;;
  a <- get_self ;;
  response <- post {| req_url := target_url a auth; req_data := xml;
                      req_headers := xml_headers |} ;;
  lift (raise_for_status response) ;;
  response <- lift (ConvertXmlToDict (content response)) ;;
  envelope <- lift (py_get response "Envelope" (VDict [])) ;;
  lift (py_get envelope "Body" VNone).

(** [API.login], over the submission routine it calls. *)
Definition login_with
    (submit : value -> bool -> bool -> bool -> M W (value * bool))
  : M W value :=
  a <- get_self ;;
  if negb (truthy (username a) && truthy (password a)) then ret VNone
  else
    xml <- lift (set_body _get_xml_document
                   (login_body (username a) (password a))) ;;
    rs <- submit xml false true false ;;
    sessionid <- (if snd rs then lift (py_get (fst rs) "SESSIONID" VNone)
                  else ret VNone) ;;
    if negb (truthy sessionid) then raise AuthException
    else ret sessionid.

(** [API._submit_request(xml_dict, retry, auth, raw_xml)].  [fuel]
    bounds the depth of the calls; at depth zero Python's
    [RecursionError] is raised. *)
Fixpoint _submit_request (fuel : nat) (xml_dict : value)
    (retry auth raw_xml : bool) {struct fuel} : M W (value * bool) :=
  match fuel with
  | O => raise RecursionError
  | S fuel' =>
      response <- exchange xml_dict auth raw_xml ;;
      success <- lift (classify_success response) ;;
      if negb success then
        fault <- lift (py_getitem response "Fault") ;;
        error_id <- lift (fault_error_id fault) ;;
        if eq_str_140 error_id && retry then
          sid <- login_with (_submit_request fuel') ;;
          set_sessionid sid ;;
          _submit_request fuel' xml_dict false false false
        else if auth then lift (return_result response success)
        else raise (ResponseException fault)
      else lift (return_result response success)
  end.

(** [API.login]. *)
Definition login (fuel : nat) : M W value :=
  login_with (_submit_request fuel).

(** [API.__init__]: the instance, or the exception of [login]. *)
Definition __init__ (fuel : nat) (w : W)
    (url0 : string) (username0 password0 sessionid0 : value)
  : state W * result unit :=
  let a := {| url := url0; username := username0; password := password0;
              sessionid := VNone |} in
  (sid <- (if truthy sessionid0 then ret sessionid0 else login fuel) ;;
   set_sessionid sid) (Build_state a w []).

(** The body of [_submit_request] when [retry] is false: one exchange,
    no call of [login] and no call of itself. *)
Definition submit_once (xml_dict : value) (auth raw_xml : bool)
  : M W (value * bool) :=
  response <- exchange xml_dict auth raw_xml ;;
  success <- lift (classify_success response) ;;
  if negb success then
    fault <- lift (py_getitem response "Fault") ;;
    _ <- lift (fault_error_id fault) ;;
    if auth then lift (return_result response success)
    else raise (ResponseException fault)
  else lift (return_result response success).

(** The request [_submit_request] posts first. *)
Definition first_request (a : API) (xml : value) (auth : bool) : Request :=
  {| req_url := target_url a auth; req_data := xml;
     req_headers := xml_headers |}.

(** The payload [login] submits: [_get_xml_document()] with its body
    set. *)
Definition login_payload (a : API) : value :=
  VDict [(SStr "Envelope",
          VDict [(SStr "Body", login_body (username a) (password a))])].

(** [self.username and self.password] holds. *)
Definition has_credentials (a : API) : bool :=
  truthy (username a) && truthy (password a).

(** The state after [self.sessionid = tok]. *)
Definition store_token (st : state W) (tok : value) : state W :=
  Build_state (with_sessionid (self st) tok) (net st) (sent st).

(** A method that only adds to the requests posted so far. *)
Definition appends {A} (m : M W A) : Prop :=
  forall st, exists rest, sent (fst (m st)) = sent st ++ rest.

(** [API.logout]. *)
Definition logout (fuel : nat) : M W (value * bool) :=
  _submit_request fuel (VStr "<Envelope><Body><Logout/></Body></Envelope>")
    true false true.

End Client.

(** ** Payload builders and endpoint methods *)

(** What an endpoint method can raise: an exception of the layers below,
    or the [AssertionError] of one of its [assert] statements, with its
    message (assertions are taken to be enabled). *)
Inductive error : Type :=
| Raised (e : exn)
| AssertionError (msg : string).

Definition outcome (A : Type) : Type := (error + A)%type.

Definition obind {A B} (o : outcome A) (k : A -> outcome B) : outcome B :=
  match o with
  | inl e => inl e
  | inr a => k a
  end.

Declare Scope outcome_scope.
Delimit Scope outcome_scope with outcome.
Notation "'let!' x ':=' e 'in' k" := (obind e (fun x => k))
  (at level 10, x name, e at level 100, k at level 200) : outcome_scope.
Local Open Scope outcome_scope.

Definition raised {A} (r : result A) : outcome A :=
  match r with
  | inl e => inl (Raised e)
  | inr a => inr a
  end.

(** [assert cond, msg]. *)
Definition py_assert (cond : bool) (msg : string) : outcome unit :=
  if cond then inr tt else inl (AssertionError msg).

(** [a or b]. *)
Definition py_or (a b : value) : value := if truthy a then a else b.

(** [v is not None]. *)
Definition is_not_none (v : value) : bool :=
  match v with
  | VNone => false
  | _ => true
  end.

(** [callable(getattr(data, 'items', None))]: of the objects modelled
    only a [dict] has the method. *)
Definition has_items (data : value) : bool :=
  match data with
  | VDict _ => true
  | _ => false
  end.

(** [data.items()]. *)
Definition py_items (data : value) : result (list (scalar * value)) :=
  match data with
  | VDict d => ok d
  | _ => throw AttributeError
  end.

(** [l.extend(items)]. *)
Definition py_extend (l items : value) : result value :=
  match l with
  | VList a => let? b := py_iter items in ok (VList (a ++ b))
  | _ => throw AttributeError
  end.

(** [v[p1]...[pn]] replaced by what [f] makes of it; the update is in
    place, so the enclosing objects show it. *)
Fixpoint modify_at (v : value) (path : list string)
    (f : value -> result value) {struct path} : result value :=
  match path with
  | [] => f v
  | p :: rest =>
      let? child := py_getitem v p in
      let? child' := modify_at child rest f in
      py_setitem v p child'
  end.

(** [xml['Envelope']['Body'][op][key] = x]. *)
Definition set_field (xml : value) (op key : string) (x : value)
  : result value :=
  modify_at xml ["Envelope"; "Body"; op] (fun d => py_setitem d key x).

(** [{'NAME': column, 'VALUE': value}]. *)
Definition column_entry (kv : scalar * value) : value :=
  VDict [(SStr "NAME", VScalar (fst kv)); (SStr "VALUE", snd kv)].

(** [API._data_to_columns]. *)
Definition _data_to_columns (data : value) : outcome value :=
  let! _ := py_assert (has_items data)
              "Data parameter must have a callable called items" in
  let! items := raised (py_items data) in
  inr (VList (map column_entry items)).

(** The payload of [add_user]. *)
Definition add_user_payload (list_id email data : value) : outcome value :=
  let data := py_or data (VDict []) in
  let! xml :=
    raised (set_body _get_xml_document
              (VDict [(SStr "AddRecipient",
                       VDict [(SStr "LIST_ID", list_id);
                              (SStr "CREATED_FROM", VInt 2);
                              (SStr "COLUMN",
                               VList [VDict [(SStr "NAME", VStr "EMAIL");
                                             (SStr "VALUE", email)]])])])) in
  let! columns := _data_to_columns data in
  raised (modify_at xml ["Envelope"; "Body"; "AddRecipient"; "COLUMN"]
            (fun l => py_extend l columns)).

(** The payload of [add_contact_to_contact_list]. *)
Definition add_contact_to_contact_list_payload
    (contact_list_id contact_id data : value) : outcome value :=
  let data := py_or data (VDict []) in
  let! ok_ :=
    (if truthy contact_list_id then inr true
     else let! n := raised (py_len data) in inr (1 <=? n)%Z) in
  let! _ := py_assert ok_ "Contact_list_id or data parameter must be set" in
  let! xml :=
    raised (set_body _get_xml_document
              (VDict [(SStr "AddContactToContactList",
                       VDict [(SStr "CONTACT_LIST_ID", contact_list_id)])])) in
  if truthy contact_id then
    (* [.update({'CONTACT_ID': contact_id})] *)
    raised (set_field xml "AddContactToContactList" "CONTACT_ID" contact_id)
  else if truthy data then
    let! columns := _data_to_columns data in
    raised (set_field xml "AddContactToContactList" "COLUMN" columns)
  else inr xml.

(** The payload of [remove_user]. *)
Definition remove_user_payload (list_id email : value) : outcome value :=
  raised (set_body _get_xml_document
            (VDict [(SStr "RemoveRecipient",
                     VDict [(SStr "LIST_ID", list_id);
                            (SStr "EMAIL", email)])])).

(** The payload of [update_user]. *)
Definition update_user_payload (list_id email data : value) : outcome value :=
  let! n := raised (py_len data) in
  let! _ := py_assert (1 <=? n)%Z
              "Data parameter must contain at least one column/value pair" in
  let! columns := _data_to_columns data in
  raised (set_body _get_xml_document
            (VDict [(SStr "UpdateRecipient",
                     VDict [(SStr "LIST_ID", list_id);
                            (SStr "CREATED_FROM", VInt 2);
                            (SStr "OLD_EMAIL", email);
                            (SStr "COLUMN", columns)])])).

(** The payload of [set_column_value]. *)
Definition set_column_value_payload (id col_name col_value : value)
  : outcome value :=
  let! xml :=
    raised (set_body _get_xml_document
              (VDict [(SStr "SetColumnValue",
                       VDict [(SStr "LIST_ID", id);
                              (SStr "COLUMN_NAME", col_name);
                              (SStr "ACTION", VInt 0)])])) in
  if is_not_none col_value then
    let! xml := raised (set_field xml "SetColumnValue" "ACTION" (VInt 1)) in
    raised (set_field xml "SetColumnValue" "COLUMN_VALUE" col_value)
  else inr xml.

(** A [datetime] argument: the object with its [strftime] method. *)
Record datetime : Type := { strftime : string -> string }.

Definition SCHEDULE_MAILING_DATE_FORMAT : string := "%m/%d/%Y %I:%M:%S %p".

(** [v == 1]. *)
Definition eq_int_1 (v : value) : bool :=
  match v with
  | VInt z => Z.eqb z 1
  | _ => false
  end.

(** [h is not None and isinstance(h, int) and h <= 24 and h >= 1]. *)
Definition valid_pre_processing_hours (h : value) : bool :=
  match h with
  | VInt z => (z <=? 24)%Z && (1 <=? z)%Z
  | _ => false
  end.

(** The payload of [schedule_mailing]. *)
Definition schedule_mailing_payload
    (template_id list_id mailing_name : value) (schedule_time : datetime)
    (send_html send_text subject pre_processing_hours : value)
  : outcome value :=
  let schedule_time_string :=
    strftime schedule_time SCHEDULE_MAILING_DATE_FORMAT in
  let! xml :=
    raised (set_body _get_xml_document
              (VDict [(SStr "ScheduleMailing",
                       VDict [(SStr "TEMPLATE_ID", template_id);
                              (SStr "LIST_ID", list_id);
                              (SStr "MAILING_NAME", mailing_name);
                              (SStr "SCHEDULED", VStr schedule_time_string);
                              (SStr "VISIBILITY", VInt 1)])])) in
  let! xml :=
    (if eq_int_1 send_html
     then raised (set_field xml "ScheduleMailing" "SEND_HTML" send_html)
     else inr xml) in
  let! xml :=
    (if eq_int_1 send_text
     then raised (set_field xml "ScheduleMailing" "SEND_TEXT" send_text)
     else inr xml) in
  let! xml :=
    (if is_not_none subject
     then raised (set_field xml "ScheduleMailing" "SUBJECT" subject)
     else inr xml) in
  if valid_pre_processing_hours pre_processing_hours
  then raised (set_field xml "ScheduleMailing" "PRE_PROCESSING_HOURS"
                 pre_processing_hours)
  else inr xml.

Section Endpoints.

Context {W : Type} {C : Collaborators W}.

(** [result, success = self._submit_request(xml); return result, success]
    for the payload a method has built, if it has built one. *)
Definition submit_payload (fuel : nat) (payload : outcome value)
  : state W -> state W * outcome (value * bool) :=
  fun st =>
    match payload with
    | inl e => (st, inl e)
    | inr xml =>
        let (st', r) := _submit_request fuel xml true false false st in
        (st', raised r)
    end.

(** A call whose value is not returned: the method returns [None]. *)
Definition discard {A} (m : state W -> state W * outcome A)
  : state W -> state W * outcome value :=
  fun st =>
    match m st with
    | (st', inl e) => (st', inl e)
    | (st', inr _) => (st', inr VNone)
    end.

(** [API.add_user]. *)
Definition add_user (fuel : nat) (list_id email data : value)
  : state W -> state W * outcome (value * bool) :=
  submit_payload fuel (add_user_payload list_id email data).

(** [API.add_recipient]. *)
Definition add_recipient (fuel : nat) (list_id email data : value)
  : state W -> state W * outcome (value * bool) :=
  add_user fuel list_id email (py_or data (VDict [])).

(** [API.add_contact_to_contact_list]. *)
Definition add_contact_to_contact_list (fuel : nat)
    (contact_list_id contact_id data : value)
  : state W -> state W * outcome (value * bool) :=
  submit_payload fuel
    (add_contact_to_contact_list_payload contact_list_id contact_id data).

(** [API.remove_user]. *)
Definition remove_user (fuel : nat) (list_id email : value)
  : state W -> state W * outcome (value * bool) :=
  submit_payload fuel (remove_user_payload list_id email).

(** [API.remove_recipient]. *)
Definition remove_recipient (fuel : nat) (list_id email : value)
  : state W -> state W * outcome value :=
  discard (remove_user fuel list_id email).

(** [API.update_user]. *)
Definition update_user (fuel : nat) (list_id email data : value)
  : state W -> state W * outcome (value * bool) :=
  submit_payload fuel (update_user_payload list_id email data).

(** [API.update_recipient]. *)
Definition update_recipient (fuel : nat) (list_id email data : value)
  : state W -> state W * outcome value :=
  discard (update_user fuel list_id email data).

(** [API.set_column_value]. *)
Definition set_column_value (fuel : nat) (id col_name col_value : value)
  : state W -> state W * outcome (value * bool) :=
  submit_payload fuel (set_column_value_payload id col_name col_value).

(** [API.schedule_mailing]. *)
Definition schedule_mailing (fuel : nat)
    (template_id list_id mailing_name : value) (schedule_time : datetime)
    (send_html send_text subject pre_processing_hours : value)
  : state W -> state W * outcome (value * bool) :=
  submit_payload fuel
    (schedule_mailing_payload template_id list_id mailing_name schedule_time
       send_html send_text subject pre_processing_hours).

End Endpoints.

(** ** The specification's own notions

    Definitions that follow the words of the specification, to be compared
    with the code above. *)

(** The value at a path of keys: every step must be a mapping that holds
    the key. *)
Fixpoint value_at (v : value) (path : list string) : option value :=
  match path with
  | [] => Some v
  | k :: rest =>
      match v with
      | VDict d =>
          match Dict.lookup d (SStr k) with
          | Some x => value_at x rest
          | None => None
          end
      | _ => None
      end
  end.

Definition is_upper (c : ascii) : bool :=
  let n := nat_of_ascii c in (65 <=? n)%nat && (n <=? 90)%nat.

(** Two bytes are equal up to case when they are equal or are the upper
    and the lower form of one letter. *)
Definition ascii_eq_nocase (a b : ascii) : bool :=
  Ascii.eqb a b
  || (is_upper a && (nat_of_ascii a + 32 =? nat_of_ascii b)%nat)
  || (is_upper b && (nat_of_ascii b + 32 =? nat_of_ascii a)%nat).

Fixpoint eq_nocase (s t : string) : bool :=
  match s, t with
  | EmptyString, EmptyString => true
  | String a s', String b t' => ascii_eq_nocase a b && eq_nocase s' t'
  | _, _ => false
  end.

(** A string without upper-case letters. *)
Fixpoint no_upper (t : string) : bool :=
  match t with
  | EmptyString => true
  | String b t' => negb (is_upper b) && no_upper t'
  end.

(** Success per the specification: the value at [RESULT.SUCCESS], taken
    to be ["false"] when the path is absent, equals ["true"] or
    ["success"] up to case. *)
Definition spec_success (response : value) : bool :=
  match
    match value_at response ["RESULT"; "SUCCESS"] with
    | Some v => v
    | None => VStr "false"
    end
  with
  | VStr s => eq_nocase s "true" || eq_nocase s "success"
  | _ => false
  end.

(** A [{NAME, VALUE}] mapping read as a pair; the name is a scalar. *)
Definition entry_of (column : value) : option (scalar * value) :=
  match column with
  | VDict c =>
      match Dict.lookup c (SStr "NAME"), Dict.lookup c (SStr "VALUE") with
      | Some (VScalar n), Some v => Some (n, v)
      | _, _ => None
      end
  | _ => None
  end.

Fixpoint entries_of_list (l : list value) : option (list (scalar * value)) :=
  match l with
  | [] => Some []
  | column :: rest =>
      match entry_of column, entries_of_list rest with
      | Some e, Some es => Some (e :: es)
      | _, _ => None
      end
  end.

(** A [COLUMN] sub-tree read as name/value pairs: one mapping, or a
    sequence of mappings. *)
Definition entries_of (columns : value) : option (list (scalar * value)) :=
  match columns with
  | VDict _ =>
      match entry_of columns with
      | Some e => Some [e]
      | None => None
      end
  | VList l => entries_of_list l
  | _ => None
  end.

(** The flat mapping from name to value of a sequence of pairs. *)
Definition flat_mapping (entries : list (scalar * value)) : dict :=
  fold_left (fun out e => Dict.setitem out (fst e) (snd e)) entries [].

(** The value the last pair named [n] carries. *)
Fixpoint last_named (entries : list (scalar * value)) (n : scalar)
  : option value :=
  match entries with
  | [] => None
  | (k, v) :: rest =>
      match last_named rest n with
      | Some x => Some x
      | None => if scalar_eqb k n then Some v else None
      end
  end.

(** Post-processing per the specification: a [COLUMNS.COLUMN] sub-tree
    with at least one pair is replaced, at the key [COLUMNS], by its flat
    mapping; any other tree is left as it is. *)
Definition spec_postprocess (d : dict) : dict :=
  match value_at (VDict d) ["COLUMNS"; "COLUMN"] with
  | Some columns =>
      match entries_of columns with
      | Some (e :: es) =>
          Dict.setitem d (SStr "COLUMNS") (VDict (flat_mapping (e :: es)))
      | _ => d
      end
  | None => d
  end.

(** The result trees post-processing is meant for: [COLUMNS], when
    present, is a mapping, and its [COLUMN], when present, is one
    [{NAME, VALUE}] mapping or a sequence of them. *)
Definition well_shaped (d : dict) : bool :=
  match Dict.lookup d (SStr "COLUMNS") with
  | None => true
  | Some (VDict c) =>
      match Dict.lookup c (SStr "COLUMN") with
      | None => true
      | Some columns =>
          match entries_of columns with
          | Some _ => true
          | None => false
          end
      end
  | Some _ => false
  end.

(** No column of the tree is itself named [COLUMN]. *)
Definition no_column_named_COLUMN (d : dict) : bool :=
  match value_at (VDict d) ["COLUMNS"; "COLUMN"] with
  | Some columns =>
      match entries_of columns with
      | Some es => forallb (fun e => negb (scalar_eqb (fst e) (SStr "COLUMN"))) es
      | None => true
      end
  | None => true
  end.

(** The mapping at [Envelope.Body] of a decoded document, if there is
    one. *)
Definition body_mapping (tree : value) : option dict :=
  match value_at tree ["Envelope"; "Body"] with
  | Some (VDict d) => Some d
  | _ => None
  end.

(** ** A simulated network

    The transport answers from a queue of canned replies and, once the
    queue is empty, with a fixed reply; documents are decoded by table. *)

Module Sim.

Local Open Scope string_scope.

Record network : Type := { queue : list Response; fallback : Response }.

Definition serve (w : network) (rq : Request) : network * result Response :=
  match queue w with
  | [] => (w, ok (fallback w))
  | r :: q => ({| queue := q; fallback := fallback w |}, ok r)
  end.

Definition text_of (a : scalar) : string :=
  match a with
  | SNone => "None"
  | SInt z => NilZero.string_of_int (Z.to_int z)
  | SStr s => s
  end.

Definition element (tag body : string) : string :=
  "<" ++ tag ++ ">" ++ body ++ "</" ++ tag ++ ">".

(** The element [tag] with content [v]: a list under a key gives one
    sibling per item, text is written as it is. *)
Fixpoint render (tag : string) (v : value) {struct v} : string :=
  match v with
  | VScalar a => element tag (text_of a)
  | VDict d =>
      element tag
        ((fix children (d : list (scalar * value)) : string :=
            match d with
            | [] => ""
            | (k, VList l) :: d' =>
                (fix items (l : list value) : string :=
                   match l with
                   | [] => ""
                   | i :: l' => render (text_of k) i ++ items l'
                   end) l ++ children d'
            | (k, x) :: d' => render (text_of k) x ++ children d'
            end) d)
  | VList _ => element tag ""
  end.

(** The document of a payload: its first key is the root. *)
Definition encode (xml_dict : value) : result string :=
  match xml_dict with
  | VDict ((k, v) :: _) => ok (render (text_of k) v)
  | VDict [] => throw (KeyError SNone)
  | _ => throw AttributeError
  end.

Definition envelope (body : dict) : value :=
  VDict [(SStr "Envelope", VDict [(SStr "Body", VDict body)])].

Definition fault (errorid : string) : value :=
  VDict [(SStr "detail",
          VDict [(SStr "error", VDict [(SStr "errorid", VStr errorid)])])].

Definition doc_login_ok : string :=
  "<Envelope><Body><RESULT><SUCCESS>true</SUCCESS><SESSIONID>abc123</SESSIONID></RESULT></Body></Envelope>".
Definition doc_expired : string :=
  "<Envelope><Body><RESULT><SUCCESS>FALSE</SUCCESS></RESULT><Fault><detail><error><errorid>140</errorid></error></detail></Fault></Body></Envelope>".
Definition doc_fault_145 : string :=
  "<Envelope><Body><RESULT><SUCCESS>false</SUCCESS></RESULT><Fault><detail><error><errorid>145</errorid></error></detail></Fault></Body></Envelope>".
Definition doc_fault_only : string :=
  "<Envelope><Body><Fault><detail><error><errorid>145</errorid></error></detail></Fault></Body></Envelope>".
Definition doc_no_fault : string :=
  "<Envelope><Body><RESULT><SUCCESS>false</SUCCESS></RESULT></Body></Envelope>".
Definition doc_success : string :=
  "<Envelope><Body><RESULT><SUCCESS>TRUE</SUCCESS></RESULT></Body></Envelope>".
Definition doc_recipient : string :=
  "<Envelope><Body><RESULT><SUCCESS>TRUE</SUCCESS><EMAIL>a@b.c</EMAIL><COLUMNS><COLUMN><NAME>City</NAME><VALUE>Oslo</VALUE></COLUMN></COLUMNS></RESULT></Body></Envelope>".

Definition documents : list (string * value) :=
  [ (doc_login_ok,
     envelope [(SStr "RESULT", VDict [(SStr "SUCCESS", VStr "true");
                                      (SStr "SESSIONID", VStr "abc123")])]);
    (doc_expired,
     envelope [(SStr "RESULT", VDict [(SStr "SUCCESS", VStr "FALSE")]);
               (SStr "Fault", fault "140")]);
    (doc_fault_145,
     envelope [(SStr "RESULT", VDict [(SStr "SUCCESS", VStr "false")]);
               (SStr "Fault", fault "145")]);
    (doc_fault_only, envelope [(SStr "Fault", fault "145")]);
    (doc_no_fault,
     envelope [(SStr "RESULT", VDict [(SStr "SUCCESS", VStr "false")])]);
    (doc_success,
     envelope [(SStr "RESULT", VDict [(SStr "SUCCESS", VStr "TRUE")])]);
    (doc_recipient,
     envelope [(SStr "RESULT",
                VDict [(SStr "SUCCESS", VStr "TRUE");
                       (SStr "EMAIL", VStr "a@b.c");
                       (SStr "COLUMNS",
                        VDict [(SStr "COLUMN",
                                VDict [(SStr "NAME", VStr "City");
                                       (SStr "VALUE", VStr "Oslo")])])])]) ].

Fixpoint decode_in (table : list (string * value)) (s : string)
  : result value :=
  match table with
  | [] => throw ParseError
  | (doc, tree) :: rest =>
      if String.eqb doc s then ok tree else decode_in rest s
  end.

Definition decode : string -> result value := decode_in documents.

#[global] Instance collaborators : Collaborators network :=
  {| requests_post := serve;
     ConvertDictToXml := encode;
     ConvertXmlToDict := decode;
     py_repr := fun _ => "{...}" |}.

Definition reply (doc : string) : Response :=
  {| status_code := 200; content := doc |}.

Definition endpoint : string := "https://api.example.com/XMLAPI".

(** A client with credentials and a token. *)
Definition client : API :=
  {| url := endpoint; username := VStr "u"; password := VStr "p";
     sessionid := VStr "old" |}.

(** A client built from a token alone. *)
Definition anonymous : API :=
  {| url := endpoint; username := VNone; password := VNone;
     sessionid := VStr "old" |}.

Definition start (a : API) (replies : list Response) (last : Response)
  : state network :=
  Build_state a {| queue := replies; fallback := last |} [].

(** The payload of [get_user_info]. *)
Definition select_recipient : value :=
  envelope [(SStr "SelectRecipientData",
             VDict [(SStr "LIST_ID", VInt 7); (SStr "EMAIL", VStr "a@b.c")])].

Definition raw_logout : value :=
  VStr "<Envelope><Body><Logout/></Body></Envelope>".

End Sim.

(** ** Replies that are not envelopes

    The simulated network with a decoder that also knows two documents
    without a mapping at [Envelope.Body]. *)

Module SimX.

Local Open Scope string_scope.

Definition doc_html : string :=
  "<html><body>Service unavailable</body></html>".
Definition doc_empty_envelope : string := "<Envelope></Envelope>".

Definition documents : list (string * value) :=
  [ (doc_html,
     VDict [(SStr "html", VDict [(SStr "body", VStr "Service unavailable")])]);
    (doc_empty_envelope, VDict [(SStr "Envelope", VStr "")]) ].

Definition decode (s : string) : result value :=
  match Sim.decode_in documents s with
  | inr tree => inr tree
  | inl _ => Sim.decode s
  end.

Definition collaborators : Collaborators Sim.network :=
  {| requests_post := Sim.serve;
     ConvertDictToXml := Sim.encode;
     ConvertXmlToDict := decode;
     py_repr := fun _ => "{...}" |}.

End SimX.

(** * Properties *)

(** ** Scalars and dictionaries *)

Lemma scalar_eqb_eq (a b : scalar) : scalar_eqb a b = true <-> a = b.
Proof.
  destruct a, b; simpl; split; intro H; try discriminate; try reflexivity.
  - apply Z.eqb_eq in H. now subst.
  - injection H as ->. apply Z.eqb_refl.
  - apply String.eqb_eq in H. now subst.
  - injection H as ->. apply String.eqb_refl.
Qed.

Lemma scalar_eqb_refl (a : scalar) : scalar_eqb a a = true.
Proof. now apply scalar_eqb_eq. Qed.

Lemma scalar_eqb_neq (a b : scalar) : a <> b -> scalar_eqb a b = false.
Proof.
  intro H. destruct (scalar_eqb a b) eqn:E; [|reflexivity].
  apply scalar_eqb_eq in E. contradiction.
Qed.

Lemma lookup_setitem_same (d : dict) (k : scalar) (v : value) :
  Dict.lookup (Dict.setitem d k v) k = Some v.
Proof.
  induction d as [|[k' v'] d IH]; simpl.
  - now rewrite scalar_eqb_refl.
  - destruct (scalar_eqb k' k) eqn:E; simpl; rewrite E; auto.
Qed.

Lemma lookup_setitem_other (d : dict) (k k' : scalar) (v : value) :
  k <> k' -> Dict.lookup (Dict.setitem d k v) k' = Dict.lookup d k'.
Proof.
  intro Hne. induction d as [|[k0 v0] d IH]; simpl.
  - now rewrite scalar_eqb_neq.
  - destruct (scalar_eqb k0 k) eqn:E; simpl.
    + apply scalar_eqb_eq in E. subst k0.
      now rewrite (scalar_eqb_neq k k' Hne).
    + now rewrite IH.
Qed.

(** Assignment to a key keeps the keys in place. *)
Lemma keys_setitem_present (d : dict) (k : scalar) (v x : value) :
  Dict.lookup d k = Some x -> Dict.keys (Dict.setitem d k v) = Dict.keys d.
Proof.
  unfold Dict.keys.
  induction d as [|[k0 v0] d IH]; simpl; [discriminate|].
  destruct (scalar_eqb k0 k) eqn:E; simpl; intro H; [reflexivity|].
  f_equal. now apply IH.
Qed.

(** The loop over the pairs yields the mapping in which each name
    carries the value of its last pair. *)
Lemma fold_setitem_lookup (es : list (scalar * value)) (out : dict) (n : scalar) :
  Dict.lookup (fold_left (fun o e => Dict.setitem o (fst e) (snd e)) es out) n
  = match last_named es n with
    | Some x => Some x
    | None => Dict.lookup out n
    end.
Proof.
  revert out. induction es as [|[k v] es IH]; intro out; simpl; [reflexivity|].
  rewrite IH. destruct (last_named es n); [reflexivity|].
  destruct (scalar_eqb k n) eqn:E.
  - apply scalar_eqb_eq in E. subst. apply lookup_setitem_same.
  - apply lookup_setitem_other. intro Heq. subst.
    now rewrite scalar_eqb_refl in E.
Qed.

Lemma flat_mapping_lookup (es : list (scalar * value)) (n : scalar) :
  Dict.lookup (flat_mapping es) n = last_named es n.
Proof.
  unfold flat_mapping. rewrite fold_setitem_lookup.
  now destruct (last_named es n).
Qed.

Lemma last_named_absent (es : list (scalar * value)) (n : scalar) :
  forallb (fun e => negb (scalar_eqb (fst e) n)) es = true ->
  last_named es n = None.
Proof.
  induction es as [|[k v] es IH]; simpl; [reflexivity|].
  intro H. apply andb_true_iff in H as [Hk Hes].
  rewrite (IH Hes). apply negb_true_iff in Hk. now rewrite Hk.
Qed.

(** ** Case-insensitive comparison *)

Lemma is_upper_bound (a : ascii) :
  is_upper a = true -> (nat_of_ascii a + 32 < 256)%nat.
Proof.
  unfold is_upper. intro H. apply andb_true_iff in H as [_ H].
  apply Nat.leb_le in H. lia.
Qed.

Lemma lower_ascii_eqb (a b : ascii) :
  is_upper b = false -> Ascii.eqb (lower_ascii a) b = ascii_eq_nocase a b.
Proof.
  intro Hb. unfold ascii_eq_nocase, lower_ascii. cbv zeta.
  change ((65 <=? nat_of_ascii a)%nat && (nat_of_ascii a <=? 90)%nat)
    with (is_upper a).
  rewrite Hb, andb_false_l, orb_false_r.
  destruct (is_upper a) eqn:Ha.
  - rewrite andb_true_l.
    assert (Hab : Ascii.eqb a b = false).
    { destruct (Ascii.eqb_spec a b) as [->|]; [congruence|reflexivity]. }
    rewrite Hab, orb_false_l.
    destruct (Nat.eqb_spec (nat_of_ascii a + 32) (nat_of_ascii b)) as [E|E].
    + rewrite E, ascii_nat_embedding. apply Ascii.eqb_refl.
    + destruct (Ascii.eqb_spec (ascii_of_nat (nat_of_ascii a + 32)) b)
        as [E'|]; [|reflexivity].
      exfalso. apply E. rewrite <- E'.
      symmetry. apply nat_ascii_embedding. now apply is_upper_bound.
  - now rewrite andb_false_l, orb_false_r.
Qed.

Lemma lower_eqb (t : string) :
  no_upper t = true -> forall s, String.eqb (lower s) t = eq_nocase s t.
Proof.
  induction t as [|b t IH]; intros Ht s; destruct s as [|a s]; simpl;
    try reflexivity.
  simpl in Ht. apply andb_true_iff in Ht as [Hb Ht].
  apply negb_true_iff in Hb.
  rewrite (lower_ascii_eqb a b Hb), (IH Ht s).
  reflexivity.
Qed.

(** ** Classification *)

Lemma in_true_success_nocase (s : string) :
  in_true_success (lower s) = eq_nocase s "true" || eq_nocase s "success".
Proof.
  unfold in_true_success.
  now rewrite (lower_eqb "true" eq_refl s), (lower_eqb "success" eq_refl s).
Qed.

(** When the lookups of the classification step go through, its flag is
    the test of the specification. *)
Lemma classify_ok_spec (response : value) (b : bool) :
  classify_success response = inr b -> b = spec_success response.
Proof.
  unfold classify_success, spec_success.
  destruct response as [a|d|l]; try discriminate.
  cbn [py_get value_at].
  destruct (Dict.lookup d (SStr "RESULT")) as [r|]; cbn [rbind ok].
  - destruct r as [a|d'|l]; try discriminate.
    cbn [py_get value_at].
    destruct (Dict.lookup d' (SStr "SUCCESS")) as [s|]; cbn [rbind ok].
    + destruct s as [[| |s]| |]; try discriminate.
      cbn [py_lower rbind ok]. rewrite in_true_success_nocase.
      now intros [= <-].
    + now intros [= <-].
  - now intros [= <-].
Qed.

(** When one of them raises, the test of the specification fails. *)
Lemma classify_raise_spec (response : value) (e : exn) :
  classify_success response = inl e -> spec_success response = false.
Proof.
  unfold classify_success, spec_success.
  destruct response as [a|d|l]; try reflexivity.
  cbn [py_get value_at].
  destruct (Dict.lookup d (SStr "RESULT")) as [r|]; cbn [rbind ok];
    [|discriminate].
  destruct r as [a|d'|l]; try reflexivity.
  cbn [py_get value_at].
  destruct (Dict.lookup d' (SStr "SUCCESS")) as [s|]; cbn [rbind ok];
    [|discriminate].
  destruct s as [[| |s]| |]; try reflexivity.
  discriminate.
Qed.

(** The classification step yields success exactly when the value at
    [RESULT.SUCCESS] of the response body tree, taken to be ["false"]
    when the path is absent, equals ["true"] or ["success"] up to
    case. *)
Lemma classify_success_iff (response : value) :
  classify_success response = inr true <-> spec_success response = true.
Proof.
  split.
  - intro H. symmetry. exact (classify_ok_spec response true H).
  - intro Hs. destruct (classify_success response) as [e|b] eqn:Hc.
    + rewrite (classify_raise_spec response e Hc) in Hs. discriminate.
    + rewrite (classify_ok_spec response b Hc). now rewrite Hs.
Qed.

(** ** Post-processing *)

Lemma store_column_entry (out : dict) (column : value) (e : scalar * value) :
  entry_of column = Some e ->
  store_column out column = ok (Dict.setitem out (fst e) (snd e)).
Proof.
  unfold entry_of, store_column.
  destruct column as [a|c|l]; try discriminate.
  simpl.
  destruct (Dict.lookup c (SStr "NAME")) as [[n|?|?]|]; try discriminate.
  destruct (Dict.lookup c (SStr "VALUE")) as [v|]; try discriminate.
  intro H. injection H as <-. reflexivity.
Qed.

Lemma store_columns_entries (l : list value) :
  forall es out,
    entries_of_list l = Some es ->
    store_columns out l
    = ok (fold_left (fun o e => Dict.setitem o (fst e) (snd e)) es out).
Proof.
  induction l as [|column l IH]; intros es out; simpl.
  - intro H. injection H as <-. reflexivity.
  - destruct (entry_of column) as [e|] eqn:He; [|discriminate].
    destruct (entries_of_list l) as [es'|] eqn:Hl; [|discriminate].
    intro H. injection H as <-.
    rewrite (store_column_entry out column e He). simpl.
    now apply IH.
Qed.

Lemma entry_of_nonempty (c : dict) (e : scalar * value) :
  entry_of (VDict c) = Some e -> (Z.of_nat (List.length c) <? 1)%Z = false.
Proof.
  destruct c; simpl; [discriminate|intros _]. apply Z.ltb_ge. lia.
Qed.

(** On a well-shaped result tree the method computes the post-processing
    of the specification. *)
Lemma sanitize_refines (d : dict) :
  well_shaped d = true ->
  _sanitize_columns_in_api_result (VDict d) = inr (VDict (spec_postprocess d)).
Proof.
  unfold well_shaped, spec_postprocess, _sanitize_columns_in_api_result.
  simpl.
  destruct (Dict.lookup d (SStr "COLUMNS")) as [[a|c|l]|]; simpl;
    try discriminate; try reflexivity.
  destruct (Dict.lookup c (SStr "COLUMN")) as [columns|]; simpl;
    [|reflexivity].
  destruct columns as [a|c'|l]; try discriminate.
  - unfold entries_of.
    destruct (entry_of (VDict c')) as [e|] eqn:He; [intros _|discriminate].
    cbn [py_len rbind ok].
    rewrite (entry_of_nonempty c' e He).
    rewrite (store_column_entry [] (VDict c') e He). reflexivity.
  - unfold entries_of.
    destruct (entries_of_list l) as [es|] eqn:Hl; [intros _|discriminate].
    cbn [py_len py_iter rbind ok].
    destruct l as [|column l].
    + simpl in Hl. injection Hl as <-. reflexivity.
    + assert (Hlen : (Z.of_nat (List.length (column :: l)) <? 1)%Z = false).
      { apply Z.ltb_ge. simpl List.length. lia. }
      rewrite Hlen.
      rewrite (store_columns_entries (column :: l) es [] Hl).
      destruct es as [|e es].
      * simpl in Hl. destruct (entry_of column); [|discriminate].
        destruct (entries_of_list l); discriminate.
      * reflexivity.
Qed.

(** The replacement happens in place: keys and their order stay. *)
Lemma postprocess_keys (d : dict) :
  Dict.keys (spec_postprocess d) = Dict.keys d.
Proof.
  unfold spec_postprocess. cbn [value_at].
  destruct (Dict.lookup d (SStr "COLUMNS")) as [c|] eqn:Hc; [|reflexivity].
  destruct c as [a|c|l]; try reflexivity.
  destruct (Dict.lookup c (SStr "COLUMN")) as [columns|]; [|reflexivity].
  destruct (entries_of columns) as [[|e es]|]; try reflexivity.
  exact (keys_setitem_present d _ _ _ Hc).
Qed.

(** A flat mapping without the key [COLUMN] is left alone. *)
Lemma sanitize_flat_fixed (d : dict) (flat : dict) :
  Dict.lookup flat (SStr "COLUMN") = None ->
  let d' := Dict.setitem d (SStr "COLUMNS") (VDict flat) in
  _sanitize_columns_in_api_result (VDict d') = inr (VDict d').
Proof.
  intros Hflat d'. unfold _sanitize_columns_in_api_result. simpl.
  unfold d'. rewrite lookup_setitem_same. simpl. rewrite Hflat. reflexivity.
Qed.

(** C7, as amended: on a result tree whose [COLUMNS] entry, when present,
    is a mapping and whose [COLUMNS.COLUMN] entry, when present, is one
    [{NAME, VALUE}] mapping or a sequence of such mappings, the method
    replaces [COLUMNS] in place by the flat mapping from name to value
    when there is at least one column and returns the tree unchanged
    otherwise, the keys of the tree keeping their order; when moreover
    no column is named [COLUMN], applying the method to its own result
    changes nothing. *)
Theorem sanitize_columns_flat (d : dict) :
  well_shaped d = true ->
  _sanitize_columns_in_api_result (VDict d) = inr (VDict (spec_postprocess d))
  /\ Dict.keys (spec_postprocess d) = Dict.keys d
  /\ (no_column_named_COLUMN d = true ->
      _sanitize_columns_in_api_result (VDict (spec_postprocess d))
      = inr (VDict (spec_postprocess d))).
Proof.
  intro Hw. split; [now apply sanitize_refines|].
  split; [apply postprocess_keys|].
  intro Hno. generalize (sanitize_refines d Hw).
  unfold spec_postprocess, no_column_named_COLUMN in *.
  destruct (value_at (VDict d) ["COLUMNS"; "COLUMN"]) as [columns|];
    [|auto].
  destruct (entries_of columns) as [[|e es]|]; auto.
  intros _. apply sanitize_flat_fixed.
  rewrite flat_mapping_lookup. now apply last_named_absent.
Qed.

(** A tree with three columns, and its post-processing twice. *)
Lemma sanitize_columns_flat_witness :
  let column n v := VDict [(SStr "NAME", VStr n); (SStr "VALUE", VStr v)] in
  let d := [(SStr "SUCCESS", VStr "TRUE");
            (SStr "COLUMNS",
             VDict [(SStr "COLUMN",
                     VList [column "City" "Oslo"; column "Zip" "0150";
                            column "City" "Bergen"])]);
            (SStr "EMAIL", VStr "a@b.c")] in
  let flat := [(SStr "SUCCESS", VStr "TRUE");
               (SStr "COLUMNS",
                VDict [(SStr "City", VStr "Bergen"); (SStr "Zip", VStr "0150")]);
               (SStr "EMAIL", VStr "a@b.c")] in
  _sanitize_columns_in_api_result (VDict d) = inr (VDict flat)
  /\ _sanitize_columns_in_api_result (VDict flat) = inr (VDict flat).
Proof.
  intros column d flat.
  split.
  - exact (proj1 (sanitize_columns_flat d eq_refl)).
  - exact (proj2 (proj2 (sanitize_columns_flat d eq_refl)) eq_refl).
Defined.

(** C7, as stated, fails: a column named [COLUMN] makes the second
    application raise, and a [COLUMNS] leaf (no [COLUMNS.COLUMN] path)
    raises instead of passing through. *)
Lemma sanitize_twice_counterexample :
  let data :=
    VDict [(SStr "COLUMNS",
            VDict [(SStr "COLUMN",
                    VDict [(SStr "NAME", VStr "COLUMN");
                           (SStr "VALUE", VStr "x")])])] in
  let once := VDict [(SStr "COLUMNS", VDict [(SStr "COLUMN", VStr "x")])] in
  _sanitize_columns_in_api_result data = inr once
  /\ _sanitize_columns_in_api_result once = inl TypeError
  /\ _sanitize_columns_in_api_result
       (VDict [(SStr "SUCCESS", VStr "TRUE"); (SStr "COLUMNS", VStr "")])
     = inl AttributeError.
Proof. repeat split. Qed.

(** What the method returns is a mapping. *)
Lemma sanitize_returns_dict (data out : value) :
  _sanitize_columns_in_api_result data = inr out -> exists d, out = VDict d.
Proof.
  unfold _sanitize_columns_in_api_result.
  destruct data as [a|d|l]; try discriminate.
  destruct (py_get (VDict d) "COLUMNS" (VDict [])) as [e|c]; [discriminate|].
  cbn [rbind].
  destruct (py_get c "COLUMN" (VList [])) as [e|columns]; [discriminate|].
  cbn [rbind].
  destruct (py_len columns) as [e|len]; [discriminate|].
  cbn [rbind].
  destruct (len <? 1)%Z.
  - intro H. injection H as <-. now exists d.
  - match goal with
    | |- rbind ?m _ = _ -> _ => destruct m as [e|o]; [discriminate|]
    end.
    cbn [rbind py_setitem ok]. intro H. injection H as <-. now eexists.
Qed.

Lemma return_result_dict (body data : value) (s s' : bool) :
  return_result body s = inr (data, s') -> s' = s /\ exists d, data = VDict d.
Proof.
  unfold return_result.
  destruct (py_getitem body "RESULT") as [e|res]; [discriminate|].
  cbn [rbind].
  destruct (_sanitize_columns_in_api_result res) as [e|out] eqn:Hs;
    [discriminate|].
  cbn [rbind ok]. intro H. injection H as <- <-.
  split; [reflexivity|exact (sanitize_returns_dict _ _ Hs)].
Qed.

(** ** The submission protocol *)

Create HintDb appends.

Section Protocol.

Context {W : Type} {C : Collaborators W}.

Implicit Types (st : state W) (x body fault eid tok : value)
  (retry auth raw : bool) (n : nat).

(** *** Running a method step by step *)

Lemma bind_ok {A B} (m : M W A) (k : A -> M W B) st st' (a : A) :
  m st = (st', inr a) -> bind m k st = k a st'.
Proof. unfold bind. now intros ->. Qed.

Lemma bind_err {A B} (m : M W A) (k : A -> M W B) st st' (e : exn) :
  m st = (st', inl e) -> bind m k st = (st', inl e).
Proof. unfold bind. now intros ->. Qed.

Lemma bind_lift_ok {A B} (r : result A) (k : A -> M W B) st (a : A) :
  r = inr a -> bind (lift r) k st = k a st.
Proof. now intros ->. Qed.

Lemma bind_lift_err {A B} (r : result A) (k : A -> M W B) st (e : exn) :
  r = inl e -> bind (lift r) k st = (st, inl e).
Proof. now intros ->. Qed.

(** *** One exchange *)

(** An exchange either fails to encode and leaves the state alone, or
    posts exactly one request; it never touches the instance. *)
Lemma exchange_inv x auth raw st st' (r : result value) :
  exchange x auth raw st = (st', r) ->
  (exists e, request_body x raw = inl e /\ st' = st /\ r = inl e)
  \/ (exists xml, request_body x raw = inr xml
                  /\ self st' = self st
                  /\ sent st' = sent st ++ [first_request (self st) xml auth]).
Proof.
  unfold exchange, bind, lift, get_self, post, first_request.
  destruct (request_body x raw) as [e|xml].
  - intro H. injection H as <- <-. left. now exists e.
  - intro H. right. exists xml. split; [reflexivity|].
    destruct (requests_post (net st) _) as [w [e|resp]].
    + injection H as <- _. now split.
    + destruct (raise_for_status resp) as [e|[]].
      * injection H as <- _. now split.
      * destruct (ConvertXmlToDict (content resp)) as [e|tree].
        { injection H as <- _. now split. }
        destruct (py_get tree "Envelope" (VDict [])) as [e|env].
        { injection H as <- _. now split. }
        injection H as <- _. now split.
Qed.

(** An exchange that yields a response body tree has posted its
    request. *)
Lemma exchange_ok_inv x auth raw st st' body :
  exchange x auth raw st = (st', inr body) ->
  exists xml, request_body x raw = inr xml
              /\ self st' = self st
              /\ sent st' = sent st ++ [first_request (self st) xml auth].
Proof.
  intro H. destruct (exchange_inv _ _ _ _ _ _ H) as [(e & _ & _ & He)|H'].
  - discriminate.
  - exact H'.
Qed.

(** *** The branches of [_submit_request] *)

Lemma submit_success n x retry auth raw st st1 body :
  exchange x auth raw st = (st1, inr body) ->
  classify_success body = inr true ->
  _submit_request (S n) x retry auth raw st
  = (st1, return_result body true).
Proof.
  intros He Hc. simpl.
  rewrite (bind_ok _ _ _ _ _ He), (bind_lift_ok _ _ _ _ Hc).
  reflexivity.
Qed.

Lemma submit_no_fault n x retry auth raw st st1 body (e : exn) :
  exchange x auth raw st = (st1, inr body) ->
  classify_success body = inr false ->
  py_getitem body "Fault" = inl e ->
  _submit_request (S n) x retry auth raw st = (st1, inl e).
Proof.
  intros He Hc Hf. simpl.
  rewrite (bind_ok _ _ _ _ _ He), (bind_lift_ok _ _ _ _ Hc). simpl.
  now rewrite (bind_lift_err _ _ _ _ Hf).
Qed.

Lemma submit_fault n x retry auth raw st st1 body fault eid :
  exchange x auth raw st = (st1, inr body) ->
  classify_success body = inr false ->
  py_getitem body "Fault" = inr fault ->
  fault_error_id fault = inr eid ->
  eq_str_140 eid && retry = false ->
  _submit_request (S n) x retry auth raw st
  = if auth then (st1, return_result body false)
    else (st1, inl (ResponseException fault)).
Proof.
  intros He Hc Hf Hi Hr. simpl.
  rewrite (bind_ok _ _ _ _ _ He), (bind_lift_ok _ _ _ _ Hc). simpl.
  rewrite (bind_lift_ok _ _ _ _ Hf), (bind_lift_ok _ _ _ _ Hi), Hr.
  now destruct auth.
Qed.

Lemma submit_expired n x auth raw st st1 body fault eid :
  exchange x auth raw st = (st1, inr body) ->
  classify_success body = inr false ->
  py_getitem body "Fault" = inr fault ->
  fault_error_id fault = inr eid ->
  eq_str_140 eid = true ->
  _submit_request (S n) x true auth raw st
  = match login n st1 with
    | (st2, inl e) => (st2, inl e)
    | (st2, inr tok) =>
        _submit_request n x false false false (store_token st2 tok)
    end.
Proof.
  intros He Hc Hf Hi Hr. simpl.
  rewrite (bind_ok _ _ _ _ _ He), (bind_lift_ok _ _ _ _ Hc). simpl.
  rewrite (bind_lift_ok _ _ _ _ Hf), (bind_lift_ok _ _ _ _ Hi), Hr.
  simpl. unfold bind at 1. unfold login.
  destruct (login_with (_submit_request n) st1) as [st2 [e|tok]];
    reflexivity.
Qed.

(** With [retry] false the routine is one exchange, whatever the fuel. *)
Lemma submit_no_retry n x auth raw st :
  _submit_request (S n) x false auth raw st = submit_once x auth raw st.
Proof.
  simpl. unfold submit_once, bind.
  destruct (exchange x auth raw st) as [st1 [e|body]]; [reflexivity|].
  unfold lift.
  destruct (classify_success body) as [e|[|]]; try reflexivity.
  simpl.
  destruct (py_getitem body "Fault") as [e|fault]; [reflexivity|].
  destruct (fault_error_id fault) as [e|eid]; [reflexivity|].
  now rewrite andb_false_r.
Qed.

Lemma submit_once_inv x auth raw st st' (r : result (value * bool)) :
  submit_once x auth raw st = (st', r) ->
  exists r0, exchange x auth raw st = (st', r0)
             /\ (forall e, r0 = inl e -> r = inl e).
Proof.
  unfold submit_once, bind, lift, raise.
  destruct (exchange x auth raw st) as [st1 [e|body]].
  - intro H. injection H as <- <-. exists (inl e). split; [reflexivity|].
    now intros e' [= ->].
  - intro H. exists (inr body).
    assert (Hst : st' = st1).
    { destruct (classify_success body) as [e|[|]]; simpl in H;
        try (now injection H as <- _).
      destruct (py_getitem body "Fault") as [e|fault];
        [now injection H as <- _|].
      destruct (fault_error_id fault) as [e|eid];
        [now injection H as <- _|].
      destruct auth; now injection H as <- _. }
    subst st'. split; [reflexivity|discriminate].
Qed.

(** *** The login exchange *)

Lemma login_payload_built (a : API) :
  set_body _get_xml_document (login_body (username a) (password a))
  = inr (login_payload a).
Proof. reflexivity. Qed.

(** Without credentials [login] returns [None] and posts nothing. *)
Lemma login_without_credentials n st :
  has_credentials (self st) = false -> login n st = (st, inr VNone).
Proof.
  unfold has_credentials. intro H.
  unfold login, login_with, bind, get_self. now rewrite H.
Qed.

(** With credentials [login] is one submission of the login payload,
    with [retry] false and [auth] true, followed by the check of the
    session identifier. *)
Lemma login_with_credentials n st :
  has_credentials (self st) = true ->
  login n st
  = match _submit_request n (login_payload (self st)) false true false st with
    | (st1, inl e) => (st1, inl e)
    | (st1, inr (response, success)) =>
        if success then
          match py_get response "SESSIONID" VNone with
          | inl e => (st1, inl e)
          | inr sid =>
              if truthy sid then (st1, inr sid)
              else (st1, inl AuthException)
          end
        else (st1, inl AuthException)
    end.
Proof.
  unfold has_credentials. intro H.
  unfold login, login_with, get_self. unfold bind at 1. rewrite H.
  cbn [negb]. rewrite login_payload_built. unfold bind at 1, lift at 1.
  unfold bind at 1.
  destruct (_submit_request n (login_payload (self st)) false true false st)
    as [st1 [e|[response success]]]; [reflexivity|].
  cbn [fst snd]. unfold bind, lift, ret, raise.
  destruct success; [|reflexivity].
  destruct (py_get response "SESSIONID" VNone) as [e|sid]; [reflexivity|].
  now destruct (truthy sid).
Qed.

(** A login that returns has left the instance alone; with credentials
    it has posted exactly the login request and its token is truthy. *)
Lemma login_returns n st st' tok :
  login (S n) st = (st', inr tok) ->
  self st' = self st
  /\ ((has_credentials (self st) = false /\ tok = VNone /\ st' = st)
      \/ (has_credentials (self st) = true /\ truthy tok = true
          /\ exists lxml,
              ConvertDictToXml (login_payload (self st)) = inr lxml
              /\ sent st'
                 = sent st ++ [first_request (self st) (VStr lxml) true])).
Proof.
  destruct (has_credentials (self st)) eqn:Hc.
  - rewrite (login_with_credentials _ _ Hc), submit_no_retry.
    destruct (submit_once (login_payload (self st)) true false st)
      as [st1 r] eqn:Hs.
    destruct (submit_once_inv _ _ _ _ _ _ Hs) as (r0 & He & Hr0).
    destruct (exchange_inv _ _ _ _ _ _ He)
      as [(e & _ & _ & ->)|(xml & Hx & Hself & Hsent)].
    { rewrite (Hr0 e eq_refl). discriminate. }
    intro H.
    assert (Hst : st' = st1 /\ truthy tok = true).
    { destruct r as [e|[response success]]; [discriminate|].
      destruct success; [|discriminate].
      destruct (py_get response "SESSIONID" VNone) as [e|sid];
        [discriminate|].
      destruct (truthy sid) eqn:Ht; [|discriminate].
      injection H as <- <-. now split. }
    destruct Hst as [-> Ht]. split; [exact Hself|].
    right. split; [reflexivity|]. split; [exact Ht|].
    unfold request_body in Hx. cbn [negb] in Hx.
    destruct (ConvertDictToXml (login_payload (self st))) as [e|lxml];
      [discriminate|].
    injection Hx as <-. now exists lxml.
  - rewrite (login_without_credentials _ _ Hc).
    intro H. injection H as <- <-. split; [reflexivity|].
    left. now repeat split.
Qed.

(** [login] never writes to the instance. *)
Lemma login_keeps_self n st : self (fst (login (S n) st)) = self st.
Proof.
  destruct (has_credentials (self st)) eqn:Hc.
  - rewrite (login_with_credentials _ _ Hc), submit_no_retry.
    destruct (submit_once (login_payload (self st)) true false st)
      as [st1 r] eqn:Hs.
    destruct (submit_once_inv _ _ _ _ _ _ Hs) as (r0 & He & _).
    assert (Hself : self st1 = self st).
    { destruct (exchange_inv _ _ _ _ _ _ He)
        as [(e & _ & -> & _)|(xml & _ & Hself & _)]; auto. }
    destruct r as [e|[response [|]]]; cbn [fst]; auto.
    destruct (py_get response "SESSIONID" VNone) as [e|sid]; auto.
    now destruct (truthy sid).
  - now rewrite (login_without_credentials _ _ Hc).
Qed.

(** *** The retry *)

(** When the re-login fails, its error surfaces and nothing is sent
    again. *)
Lemma submit_retry_login_fails n x auth raw st st1 body fault eid st2
    (e : exn) :
  exchange x auth raw st = (st1, inr body) ->
  classify_success body = inr false ->
  py_getitem body "Fault" = inr fault ->
  fault_error_id fault = inr eid ->
  eq_str_140 eid = true ->
  login n st1 = (st2, inl e) ->
  _submit_request (S n) x true auth raw st = (st2, inl e).
Proof.
  intros He Hc Hf Hi Hr Hl.
  now rewrite (submit_expired _ _ _ _ _ _ _ _ _ He Hc Hf Hi Hr), Hl.
Qed.

(** One exchange without retry, for a payload that encodes: exactly one
    request is posted and the instance is left alone. *)
Lemma submit_no_retry_sent n x auth st xml :
  request_body x false = inr xml ->
  let st' := fst (_submit_request (S n) x false auth false st) in
  self st' = self st
  /\ sent st' = sent st ++ [first_request (self st) xml auth].
Proof.
  intros Hx st'. unfold st'. rewrite submit_no_retry.
  destruct (submit_once x auth false st) as [st3 r] eqn:Hs.
  destruct (submit_once_inv _ _ _ _ _ _ Hs) as (r0 & He & _).
  destruct (exchange_inv _ _ _ _ _ _ He)
    as [(e & Hx' & _)|(xml' & Hx' & Hself & Hsent)].
  - congruence.
  - rewrite Hx in Hx'. injection Hx' as <-. now split.
Qed.

(** C1, as amended: when the first response classifies as failure with
    [errorid] 140, [retry] is true, credentials are configured and the
    login exchange yields a session identifier, the routine performs
    exactly one login exchange, stores the fresh token, and resubmits
    the original payload exactly once with [retry] false, returning what
    that second attempt returns; whatever the second response is, no
    further login or resubmission follows. *)
Theorem submit_retry_once n x auth st st1 body fault eid st2 tok :
  exchange x auth false st = (st1, inr body) ->
  classify_success body = inr false ->
  py_getitem body "Fault" = inr fault ->
  fault_error_id fault = inr eid ->
  eq_str_140 eid = true ->
  has_credentials (self st) = true ->
  login (S n) st1 = (st2, inr tok) ->
  exists xml lxml,
    request_body x false = inr xml
    /\ ConvertDictToXml (login_payload (self st)) = inr lxml
    /\ _submit_request (S (S n)) x true auth false st
       = _submit_request (S n) x false false false (store_token st2 tok)
    /\ sessionid (self (fst (_submit_request (S (S n)) x true auth false st)))
       = tok
    /\ sent (fst (_submit_request (S (S n)) x true auth false st))
       = sent st
         ++ [first_request (self st) xml auth;
             first_request (self st) (VStr lxml) true;
             first_request (with_sessionid (self st) tok) xml false].
Proof.
  intros He Hc Hf Hi Hr Hcred Hl.
  destruct (exchange_ok_inv _ _ _ _ _ _ He) as (xml & Hx & Hself1 & Hsent1).
  destruct (login_returns _ _ _ _ Hl) as [Hself2 [(Hno & _)|(_ & _ & Hlx)]].
  { rewrite Hself1, Hcred in Hno. discriminate. }
  destruct Hlx as (lxml & Hlx & Hsent2).
  rewrite Hself1 in Hlx, Hsent2.
  exists xml, lxml. split; [exact Hx|]. split; [exact Hlx|].
  rewrite (submit_expired _ _ _ _ _ _ _ _ _ He Hc Hf Hi Hr), Hl.
  split; [reflexivity|].
  destruct (submit_no_retry_sent n x false (store_token st2 tok) xml Hx)
    as [Hself3 Hsent3].
  rewrite Hself3, Hsent3. cbn [store_token self sent].
  rewrite Hself2, Hself1, Hsent2, Hsent1.
  split; [reflexivity|].
  now rewrite <- !app_assoc.
Qed.

(** *** Failures that are not retried *)

(** A body tree that went through the classification step holds a
    mapping at [RESULT], if it holds anything there. *)
Lemma classified_result_mapping body (b : bool) (res : value) :
  classify_success body = inr b ->
  py_getitem body "RESULT" = inr res ->
  exists r, res = VDict r.
Proof.
  unfold classify_success, py_getitem, py_get.
  destruct body as [a|d|l]; try discriminate.
  destruct (Dict.lookup d (SStr "RESULT")) as [v|]; [|discriminate].
  cbn [rbind ok]. intros Hc H. injection H as <-.
  destruct v as [a|r|l]; try discriminate. now exists r.
Qed.

(** C2, as amended: an authentication request whose response
    classifies as failure with an [errorid] other than 140, and whose
    body tree has a [RESULT] entry, does not raise the fault: [RESULT]
    is then a mapping, and the routine returns its post-processing
    together with [success] false whenever the post-processing returns,
    as it does on every well-shaped [RESULT]; an error raised by the
    post-processing is the only error on this path.  The instance is
    unchanged. *)
Theorem auth_failure_returns_result n x retry raw st st1 body fault eid res :
  exchange x true raw st = (st1, inr body) ->
  classify_success body = inr false ->
  py_getitem body "Fault" = inr fault ->
  fault_error_id fault = inr eid ->
  eq_str_140 eid = false ->
  py_getitem body "RESULT" = inr res ->
  exists r,
    res = VDict r
    /\ _submit_request (S n) x retry true raw st
       = (st1, match _sanitize_columns_in_api_result (VDict r) with
               | inl e => inl e
               | inr data => inr (data, false)
               end)
    /\ (well_shaped r = true ->
        _submit_request (S n) x retry true raw st
        = (st1, inr (VDict (spec_postprocess r), false)))
    /\ self st1 = self st.
Proof.
  intros He Hc Hf Hi Hr Hres.
  destruct (classified_result_mapping _ _ _ Hc Hres) as [r ->].
  assert (Hr' : eq_str_140 eid && retry = false) by now rewrite Hr.
  assert (Hrun : _submit_request (S n) x retry true raw st
                 = (st1, match _sanitize_columns_in_api_result (VDict r) with
                         | inl e => inl e
                         | inr data => inr (data, false)
                         end)).
  { rewrite (submit_fault _ _ _ _ _ _ _ _ _ _ He Hc Hf Hi Hr').
    unfold return_result. rewrite Hres. cbn [rbind].
    now destruct (_sanitize_columns_in_api_result (VDict r)). }
  exists r. split; [reflexivity|]. split; [exact Hrun|]. split.
  - intro Hw. now rewrite Hrun, (sanitize_refines r Hw).
  - destruct (exchange_ok_inv _ _ _ _ _ _ He) as (xml & _ & Hself & _).
    exact Hself.
Qed.

(** C4: a request that is not an authentication request and whose
    response classifies as failure with a fault whose [errorid] is not
    140, or with [retry] false, raises [ResponseException] carrying the
    whole [Fault] sub-tree after that single exchange: one request has
    been posted, none of them a login, and the instance is unchanged. *)
Theorem remote_fault_raised n x retry raw st st1 body fault eid :
  exchange x false raw st = (st1, inr body) ->
  classify_success body = inr false ->
  py_getitem body "Fault" = inr fault ->
  fault_error_id fault = inr eid ->
  eq_str_140 eid = false \/ retry = false ->
  _submit_request (S n) x retry false raw st
  = (st1, inl (ResponseException fault))
  /\ self st1 = self st
  /\ exists xml,
      request_body x raw = inr xml
      /\ sent st1 = sent st ++ [first_request (self st) xml false].
Proof.
  intros He Hc Hf Hi Hr.
  assert (Hr' : eq_str_140 eid && retry = false).
  { destruct Hr as [->| ->]; [reflexivity|apply andb_false_r]. }
  rewrite (submit_fault _ _ _ _ _ _ _ _ _ _ He Hc Hf Hi Hr').
  split; [reflexivity|].
  destruct (exchange_ok_inv _ _ _ _ _ _ He) as (xml & Hx & Hself & Hsent).
  split; [exact Hself|]. now exists xml.
Qed.

(** C10: a response body tree that classifies as failure and has no
    [Fault] key makes the routine raise the [KeyError] of
    [response['Fault']]; an authentication request whose failure is
    suppressed and whose body tree has no [RESULT] key makes it raise
    the [KeyError] of [response['RESULT']]. *)
Theorem bare_lookup_errors n x retry auth raw st st1 (d : dict) :
  exchange x auth raw st = (st1, inr (VDict d)) ->
  (classify_success (VDict d) = inr false ->
   Dict.lookup d (SStr "Fault") = None ->
   _submit_request (S n) x retry auth raw st
   = (st1, inl (KeyError (SStr "Fault"))))
  /\ (forall fault eid,
        auth = true ->
        Dict.lookup d (SStr "RESULT") = None ->
        Dict.lookup d (SStr "Fault") = Some fault ->
        fault_error_id fault = inr eid ->
        eq_str_140 eid && retry = false ->
        _submit_request (S n) x retry auth raw st
        = (st1, inl (KeyError (SStr "RESULT")))).
Proof.
  intro He. split.
  - intros Hc Hf.
    apply (submit_no_fault _ _ _ _ _ _ _ _ _ He Hc).
    unfold py_getitem. now rewrite Hf.
  - intros fault eid -> Hres Hf Hi Hr.
    assert (Hc : classify_success (VDict d) = inr false).
    { unfold classify_success, py_get. now rewrite Hres. }
    assert (Hf' : py_getitem (VDict d) "Fault" = inr fault).
    { unfold py_getitem. now rewrite Hf. }
    rewrite (submit_fault _ _ _ _ _ _ _ _ _ _ He Hc Hf' Hi Hr).
    unfold return_result, py_getitem. now rewrite Hres.
Qed.

(** *** The login exchange *)


(** *** The raw bypass across the retry *)

(** C9: when a call with [raw_xml] true fails with [errorid] 140 while
    [retry] is true and [login] returns, the first request carried
    [xml_dict] as it is, and the resubmission is the call
    [_submit_request(xml_dict, retry=False)] without [raw_xml]:
    [xml_dict] goes through the encoder, whose error surfaces if it
    raises and whose output is the data of the second request if it
    does not. *)
Theorem raw_retry_reencodes n x auth st st1 body fault eid st2 tok :
  exchange x auth true st = (st1, inr body) ->
  classify_success body = inr false ->
  py_getitem body "Fault" = inr fault ->
  fault_error_id fault = inr eid ->
  eq_str_140 eid = true ->
  login (S n) st1 = (st2, inr tok) ->
  sent st1 = sent st ++ [first_request (self st) x auth]
  /\ _submit_request (S (S n)) x true auth true st
     = _submit_request (S n) x false false false (store_token st2 tok)
  /\ (forall e,
        ConvertDictToXml x = inl e ->
        _submit_request (S (S n)) x true auth true st
        = (store_token st2 tok, inl e))
  /\ (forall s,
        ConvertDictToXml x = inr s ->
        sent (fst (_submit_request (S (S n)) x true auth true st))
        = sent st2
          ++ [first_request (with_sessionid (self st) tok) (VStr s) false]).
Proof.
  intros He Hc Hf Hi Hr Hl.
  destruct (exchange_ok_inv _ _ _ _ _ _ He) as (xml & Hx & Hself1 & Hsent1).
  injection Hx as <-.
  destruct (login_returns _ _ _ _ Hl) as [Hself2 _].
  rewrite (submit_expired _ _ _ _ _ _ _ _ _ He Hc Hf Hi Hr), Hl.
  split; [exact Hsent1|]. split; [reflexivity|]. split.
  - intros e Hx. rewrite submit_no_retry.
    unfold submit_once, exchange, request_body. cbn [negb].
    rewrite Hx. reflexivity.
  - intros s Hx.
    assert (Hb : request_body x false = inr (VStr s)).
    { unfold request_body. cbn [negb]. now rewrite Hx. }
    destruct (submit_no_retry_sent n x false (store_token st2 tok) _ Hb)
      as [_ Hsent3].
    rewrite Hsent3. cbn [store_token self sent].
    now rewrite Hself2, Hself1.
Qed.

(** *** The requests posted *)

Lemma appends_ret {A} (a : A) : appends (@ret W A a).
Proof. intro st. exists []. now rewrite app_nil_r. Qed.

Lemma appends_raise {A} (e : exn) : appends (@raise W A e).
Proof. intro st. exists []. now rewrite app_nil_r. Qed.

Lemma appends_lift {A} (r : result A) : appends (@lift W A r).
Proof. intro st. exists []. now rewrite app_nil_r. Qed.

Lemma appends_get_self : appends (@get_self W).
Proof. intro st. exists []. now rewrite app_nil_r. Qed.

Lemma appends_set_sessionid tok : appends (@set_sessionid W tok).
Proof. intro st. exists []. now rewrite app_nil_r. Qed.

Lemma appends_post (rq : Request) : appends (post rq).
Proof.
  intro st. exists [rq]. unfold post.
  now destruct (requests_post (net st) rq).
Qed.

Lemma appends_bind {A B} (m : M W A) (k : A -> M W B) :
  appends m -> (forall a, appends (k a)) -> appends (bind m k).
Proof.
  intros Hm Hk st. unfold bind.
  destruct (Hm st) as [r1 H1].
  destruct (m st) as [st1 [e|a]]; cbn [fst] in H1.
  - now exists r1.
  - destruct (Hk a st1) as [r2 H2]. exists (r1 ++ r2).
    now rewrite H2, H1, app_assoc.
Qed.

#[local] Hint Resolve appends_ret appends_raise appends_lift appends_get_self
  appends_set_sessionid appends_post : appends.

Lemma appends_exchange x auth raw : appends (exchange x auth raw).
Proof.
  unfold exchange.
  repeat (apply appends_bind; [auto with appends|intro]).
  auto with appends.
Qed.

Lemma appends_login_with
    (submit : value -> bool -> bool -> bool -> M W (value * bool)) :
  (forall x retry auth raw, appends (submit x retry auth raw)) ->
  appends (login_with submit).
Proof.
  intro Hs. unfold login_with.
  apply appends_bind; [auto with appends|intro a].
  destruct (negb _); [auto with appends|].
  apply appends_bind; [auto with appends|intro xml].
  apply appends_bind; [apply Hs|intros [response success]].
  apply appends_bind.
  - cbn [snd]. destruct success; auto with appends.
  - intro sid. destruct (negb _); auto with appends.
Qed.

(** Requests are only ever added. *)
Lemma appends_submit n :
  forall x retry auth raw, appends (_submit_request n x retry auth raw).
Proof.
  induction n as [|n IH]; intros x retry auth raw; simpl.
  - auto with appends.
  - apply appends_bind; [apply appends_exchange|intro response].
    apply appends_bind; [auto with appends|intro success].
    destruct (negb success); [|auto with appends].
    apply appends_bind; [auto with appends|intro fault].
    apply appends_bind; [auto with appends|intro eid].
    destruct (eq_str_140 eid && retry).
    + apply appends_bind; [now apply appends_login_with|intro sid].
      apply appends_bind; [auto with appends|intros _]. apply IH.
    + destruct auth; auto with appends.
Qed.

Lemma bind_sent {A B} (m : M W A) (k : A -> M W B) st st1 (r : result A) :
  m st = (st1, r) ->
  (forall a, appends (k a)) ->
  exists rest, sent (fst (bind m k st)) = sent st1 ++ rest.
Proof.
  intros Hm Hk. unfold bind. rewrite Hm. destruct r as [e|a].
  - exists []. now rewrite app_nil_r.
  - apply Hk.
Qed.

(** A submission whose payload encodes posts its own request first. *)
Lemma submit_first_request n x retry auth raw st xml :
  request_body x raw = inr xml ->
  exists rest,
    sent (fst (_submit_request (S n) x retry auth raw st))
    = sent st ++ first_request (self st) xml auth :: rest.
Proof.
  intro Hx.
  destruct (exchange x auth raw st) as [st1 r0] eqn:He.
  destruct (exchange_inv _ _ _ _ _ _ He)
    as [(e & Hx' & _)|(xml' & Hx' & Hself & Hsent)]; [congruence|].
  rewrite Hx in Hx'. injection Hx' as <-.
  cbn [_submit_request].
  match goal with
  | |- context [bind (exchange x auth raw) ?k] =>
      destruct (bind_sent (exchange x auth raw) k st st1 r0 He)
        as [rest Hrest]
  end.
  - intro response.
    apply appends_bind; [auto with appends|intro success].
    destruct (negb success); [|auto with appends].
    apply appends_bind; [auto with appends|intro fault].
    apply appends_bind; [auto with appends|intro eid].
    destruct (eq_str_140 eid && retry).
    + apply appends_bind;
        [apply appends_login_with, appends_submit|intro sid].
      apply appends_bind; [auto with appends|intros _].
      apply appends_submit.
    + destruct auth; auto with appends.
  - exists rest. rewrite Hrest, Hsent, <- app_assoc. reflexivity.
Qed.

(** C8: the request a submission posts goes to the endpoint URL
    followed by [;jsessionid=] and the current session token, or to the
    bare endpoint URL when [auth] is set; for a string token the suffix
    is the token itself. *)
Theorem submit_target_url n x retry auth raw st xml :
  request_body x raw = inr xml ->
  (exists rest,
     sent (fst (_submit_request (S n) x retry auth raw st))
     = sent st
       ++ {| req_url :=
               if auth then url (self st)
               else (url (self st) ++ ";jsessionid="
                     ++ py_str (sessionid (self st)))%string;
             req_data := xml;
             req_headers := xml_headers |} :: rest)
  /\ (forall t, sessionid (self st) = VStr t ->
                py_str (sessionid (self st)) = t).
Proof.
  intro Hx. split.
  - destruct (submit_first_request n x retry auth raw st xml Hx)
      as [rest Hrest].
    exists rest. rewrite Hrest. unfold first_request, target_url.
    now destruct auth.
  - now intros t ->.
Qed.

(** *** The session token *)

(** The routine as a tree of cases over what the exchange yields. *)
Lemma submit_step n x retry auth raw st :
  _submit_request (S n) x retry auth raw st
  = match exchange x auth raw st with
    | (st1, inl e) => (st1, inl e)
    | (st1, inr body) =>
        match classify_success body with
        | inl e => (st1, inl e)
        | inr true => (st1, return_result body true)
        | inr false =>
            match py_getitem body "Fault" with
            | inl e => (st1, inl e)
            | inr fault =>
                match fault_error_id fault with
                | inl e => (st1, inl e)
                | inr eid =>
                    if eq_str_140 eid && retry then
                      match login n st1 with
                      | (st2, inl e) => (st2, inl e)
                      | (st2, inr tok) =>
                          _submit_request n x false false false
                            (store_token st2 tok)
                      end
                    else if auth then (st1, return_result body false)
                    else (st1, inl (ResponseException fault))
                end
            end
        end
    end.
Proof.
  destruct (exchange x auth raw st) as [st1 [e|body]] eqn:He.
  { cbn [_submit_request]. now rewrite (bind_err _ _ _ _ _ He). }
  destruct (classify_success body) as [e|[|]] eqn:Hc.
  - cbn [_submit_request].
    now rewrite (bind_ok _ _ _ _ _ He), (bind_lift_err _ _ _ _ Hc).
  - exact (submit_success _ _ _ _ _ _ _ _ He Hc).
  - destruct (py_getitem body "Fault") as [e|fault] eqn:Hf.
    { exact (submit_no_fault _ _ _ _ _ _ _ _ _ He Hc Hf). }
    destruct (fault_error_id fault) as [e|eid] eqn:Hi.
    { cbn [_submit_request].
      rewrite (bind_ok _ _ _ _ _ He), (bind_lift_ok _ _ _ _ Hc).
      cbn [negb].
      now rewrite (bind_lift_ok _ _ _ _ Hf), (bind_lift_err _ _ _ _ Hi). }
    destruct (eq_str_140 eid && retry) eqn:Hr.
    + apply andb_true_iff in Hr as [Hr ->].
      exact (submit_expired _ _ _ _ _ _ _ _ _ He Hc Hf Hi Hr).
    + exact (submit_fault _ _ _ _ _ _ _ _ _ _ He Hc Hf Hi Hr).
Qed.

(** The flag a submission without retry returns is the classification
    of the specification. *)
Lemma submit_flag_is_classification n x auth raw st st1 body st' data
    (b : bool) :
  exchange x auth raw st = (st1, inr body) ->
  _submit_request (S n) x false auth raw st = (st', inr (data, b)) ->
  b = spec_success body.
Proof.
  intros He. rewrite submit_step, He.
  destruct (classify_success body) as [e|[|]] eqn:Hc; [discriminate| |].
  - rewrite <- (classify_ok_spec body true Hc).
    intro H. injection H as _ H.
    now destruct (return_result_dict _ _ _ _ H) as [-> _].
  - rewrite <- (classify_ok_spec body false Hc).
    destruct (py_getitem body "Fault") as [e|fault]; [discriminate|].
    destruct (fault_error_id fault) as [e|eid]; [discriminate|].
    rewrite andb_false_r.
    destruct auth; [|discriminate].
    intro H. injection H as _ H.
    now destruct (return_result_dict _ _ _ _ H) as [-> _].
Qed.

(** C3: for every response body tree an exchange yields, the routine
    classifies the outcome by the value at [RESULT.SUCCESS], taken to be
    ["false"] when the path is absent: when that value equals ["true"]
    or ["success"] up to case, and only then, its classification is
    success, and it takes the success return, handing back the
    post-processed [RESULT] with the flag [True]; otherwise it raises
    the error of the classification step or goes on to the [Fault] of
    the failure branch.  The flag a call with [retry] false returns is
    that test. *)
Theorem submit_classifies_by_spec n x retry auth raw st st1 body :
  exchange x auth raw st = (st1, inr body) ->
  (classify_success body = inr true <-> spec_success body = true)
  /\ (spec_success body = true ->
      _submit_request (S n) x retry auth raw st
      = (st1, return_result body true))
  /\ (spec_success body = false ->
      _submit_request (S n) x retry auth raw st
      = match classify_success body with
        | inl e => (st1, inl e)
        | inr _ =>
            match py_getitem body "Fault" with
            | inl e => (st1, inl e)
            | inr fault =>
                match fault_error_id fault with
                | inl e => (st1, inl e)
                | inr eid =>
                    if eq_str_140 eid && retry then
                      match login n st1 with
                      | (st2, inl e) => (st2, inl e)
                      | (st2, inr tok) =>
                          _submit_request n x false false false
                            (store_token st2 tok)
                      end
                    else if auth then (st1, return_result body false)
                    else (st1, inl (ResponseException fault))
                end
            end
        end)
  /\ (forall st' data b,
        _submit_request (S n) x false auth raw st = (st', inr (data, b)) ->
        b = spec_success body).
Proof.
  intro He. split; [apply classify_success_iff|]. split; [|split].
  - intro Hs. apply classify_success_iff in Hs.
    exact (submit_success _ _ _ _ _ _ _ _ He Hs).
  - intro Hs. rewrite submit_step, He.
    destruct (classify_success body) as [e|[|]] eqn:Hc; try reflexivity.
    rewrite <- (classify_ok_spec body true Hc) in Hs. discriminate.
  - intros st' data b.
    exact (submit_flag_is_classification _ _ _ _ _ _ _ _ _ _ He).
Qed.

(** At depth two and beyond the result does not depend on the fuel:
    the routine never runs out of it. *)
Lemma fuel_two_suffices n x retry auth raw st :
  _submit_request (S (S n)) x retry auth raw st
  = _submit_request 2 x retry auth raw st.
Proof.
  rewrite !submit_step.
  destruct (exchange x auth raw st) as [st1 [e|body]]; [reflexivity|].
  destruct (classify_success body) as [e|[|]]; try reflexivity.
  destruct (py_getitem body "Fault") as [e|fault]; [reflexivity|].
  destruct (fault_error_id fault) as [e|eid]; [reflexivity|].
  destruct (eq_str_140 eid && retry); [|reflexivity].
  assert (Hl : login (S n) st1 = login 1 st1).
  { destruct (has_credentials (self st1)) eqn:Hc.
    - rewrite !(login_with_credentials _ _ Hc). now rewrite !submit_no_retry.
    - now rewrite !(login_without_credentials _ _ Hc). }
  rewrite Hl. destruct (login 1 st1) as [st2 [e|tok]]; [reflexivity|].
  now rewrite !submit_no_retry.
Qed.

Lemma submit_no_retry_self n x auth raw st :
  self (fst (_submit_request (S n) x false auth raw st)) = self st.
Proof.
  rewrite submit_no_retry.
  destruct (submit_once x auth raw st) as [st3 r] eqn:Hs.
  destruct (submit_once_inv _ _ _ _ _ _ Hs) as (r0 & He & _).
  destruct (exchange_inv _ _ _ _ _ _ He)
    as [(e & _ & -> & _)|(xml & _ & Hself & _)]; auto.
Qed.

(** C6, as amended: [login] never writes the session token; a
    submission leaves the instance as it was unless its first response
    is an [errorid] 140 failure with [retry] true and [login] returns;
    whenever that is the case the token, and nothing else, is
    overwritten by what [login] returned, whatever the resubmission
    then does: a truthy identifier when credentials are configured,
    [None] without any exchange when they are not; and the constructor
    stores the supplied token or else what [login] returns. *)
Theorem sessionid_written_by_retry_only n x retry auth raw st :
  let st' := fst (_submit_request (S (S n)) x retry auth raw st) in
  self (fst (login (S n) st)) = self st
  /\ (self st' = self st
      \/ (retry = true
          /\ exists st1 body fault eid st2 tok,
              exchange x auth raw st = (st1, inr body)
              /\ classify_success body = inr false
              /\ py_getitem body "Fault" = inr fault
              /\ fault_error_id fault = inr eid
              /\ eq_str_140 eid = true
              /\ login (S n) st1 = (st2, inr tok)
              /\ self st' = with_sessionid (self st) tok
              /\ (if has_credentials (self st) then truthy tok = true
                  else tok = VNone /\ st2 = st1)))
  /\ (forall w u un pw sid,
        let a := {| url := u; username := un; password := pw;
                    sessionid := VNone |} in
        __init__ (S n) w u un pw sid
        = if truthy sid
          then (Build_state (with_sessionid a sid) w [], inr tt)
          else match login (S n) (Build_state a w []) with
               | (st1, inl e) => (st1, inl e)
               | (st1, inr tok) => (store_token st1 tok, inr tt)
               end)
  /\ (forall st1 body fault eid st2 tok,
        retry = true ->
        exchange x auth raw st = (st1, inr body) ->
        classify_success body = inr false ->
        py_getitem body "Fault" = inr fault ->
        fault_error_id fault = inr eid ->
        eq_str_140 eid = true ->
        login (S n) st1 = (st2, inr tok) ->
        self st' = with_sessionid (self st) tok).
Proof.
  intro st'. split; [apply login_keeps_self|]. split; [|split].
  - unfold st'. rewrite submit_step.
    destruct (exchange x auth raw st) as [st1 [e|body]] eqn:He.
    { left. cbn [fst]. destruct (exchange_inv _ _ _ _ _ _ He)
        as [(e' & _ & -> & _)|(xml & _ & Hself & _)]; auto. }
    destruct (exchange_ok_inv _ _ _ _ _ _ He) as (xml & _ & Hself1 & _).
    destruct (classify_success body) as [e|[|]] eqn:Hc; try (now left).
    destruct (py_getitem body "Fault") as [e|fault] eqn:Hf; [now left|].
    destruct (fault_error_id fault) as [e|eid] eqn:Hi; [now left|].
    destruct (eq_str_140 eid && retry) eqn:Hr;
      [|left; now destruct auth].
    apply andb_true_iff in Hr as [Hr ->].
    destruct (login (S n) st1) as [st2 [e|tok]] eqn:Hl.
    { left. cbn [fst]. rewrite <- Hself1, <- (login_keeps_self n st1).
      now rewrite Hl. }
    right. split; [reflexivity|].
    exists st1, body, fault, eid, st2, tok.
    repeat (split; [assumption || reflexivity|]).
    destruct (login_returns _ _ _ _ Hl) as [Hself2 Hcases].
    split.
    + rewrite submit_no_retry_self. cbn [store_token self].
      now rewrite Hself2, Hself1.
    + rewrite <- Hself1.
      destruct Hcases as [(-> & -> & ->)|(-> & Ht & _)]; auto.
  - intros w u un pw sid a. unfold __init__, bind, ret, set_sessionid.
    fold a. destruct (truthy sid); [reflexivity|].
    destruct (login (S n) (Build_state a w [])) as [st1 [e|tok]];
      reflexivity.
  - intros st1 body fault eid st2 tok -> He Hc Hf Hi Hr Hl.
    unfold st'.
    rewrite (submit_expired _ _ _ _ _ _ _ _ _ He Hc Hf Hi Hr), Hl.
    rewrite submit_no_retry_self. cbn [store_token self].
    destruct (login_returns _ _ _ _ Hl) as [Hself2 _].
    destruct (exchange_ok_inv _ _ _ _ _ _ He) as (xml & _ & Hself1 & _).
    now rewrite Hself2, Hself1.
Qed.

End Protocol.

(** ** The protocol on the simulated network *)

(** A session that has expired: the first reply is the 140 fault, the
    login is answered with a session identifier, the resubmission with
    the recipient. *)
Lemma submit_retry_once_witness :
  let st := Sim.start Sim.client
              [Sim.reply Sim.doc_expired; Sim.reply Sim.doc_login_ok]
              (Sim.reply Sim.doc_recipient) in
  let x := Sim.select_recipient in
  exists xml lxml,
    request_body x false = inr xml
    /\ ConvertDictToXml (login_payload (self st)) = inr lxml
    /\ _submit_request 2 x true false false st
       = _submit_request 1 x false false false
           (store_token
              (Build_state Sim.client
                 {| Sim.queue := [];
                    Sim.fallback := Sim.reply Sim.doc_recipient |}
                 [first_request Sim.client xml false;
                  first_request Sim.client (VStr lxml) true])
              (VStr "abc123"))
    /\ sessionid (self (fst (_submit_request 2 x true false false st)))
       = VStr "abc123"
    /\ sent (fst (_submit_request 2 x true false false st))
       = sent st
         ++ [first_request (self st) xml false;
             first_request (self st) (VStr lxml) true;
             first_request (with_sessionid (self st) (VStr "abc123")) xml false].
Proof.
  intros st x.
  destruct (submit_retry_once (C := Sim.collaborators) 0 x false st
              (Build_state Sim.client
                 {| Sim.queue := [Sim.reply Sim.doc_login_ok];
                    Sim.fallback := Sim.reply Sim.doc_recipient |}
                 [first_request Sim.client
                    (VStr "<Envelope><Body><SelectRecipientData><LIST_ID>7</LIST_ID><EMAIL>a@b.c</EMAIL></SelectRecipientData></Body></Envelope>")
                    false])
              (VDict [(SStr "RESULT", VDict [(SStr "SUCCESS", VStr "FALSE")]);
                      (SStr "Fault", Sim.fault "140")])
              (Sim.fault "140") (VStr "140")
              (Build_state Sim.client
                 {| Sim.queue := [];
                    Sim.fallback := Sim.reply Sim.doc_recipient |}
                 [first_request Sim.client
                    (VStr "<Envelope><Body><SelectRecipientData><LIST_ID>7</LIST_ID><EMAIL>a@b.c</EMAIL></SelectRecipientData></Body></Envelope>")
                    false;
                  first_request Sim.client
                    (VStr "<Envelope><Body><Login><USERNAME>u</USERNAME><PASSWORD>p</PASSWORD></Login></Body></Envelope>")
                    true])
              (VStr "abc123")
              eq_refl eq_refl eq_refl eq_refl eq_refl eq_refl eq_refl)
    as (xml & lxml & Hx & Hlx & Heq & Htok & Hsent).
  exists xml, lxml.
  split; [exact Hx|]. split; [exact Hlx|].
  split; [|split; [exact Htok|exact Hsent]].
  rewrite Heq.
  injection Hx as <-. injection Hlx as <-. reflexivity.
Defined.

(** C1, as stated, fails: against a transport that always returns the
    [errorid] 140 fault, the first response is such a fault and [retry]
    is true, yet the login exchange is itself answered with the fault,
    [login] raises [AuthException], and the payload is never resubmitted:
    two requests are posted and the token is not replaced. *)
Lemma retry_always_expired_counterexample :
  let st := Sim.start Sim.client [] (Sim.reply Sim.doc_expired) in
  let x := Sim.select_recipient in
  let body := VDict [(SStr "RESULT", VDict [(SStr "SUCCESS", VStr "FALSE")]);
                     (SStr "Fault", Sim.fault "140")] in
  let out := _submit_request 2 x true false false st in
  snd (exchange x false false st) = inr body
  /\ classify_success body = inr false
  /\ fault_error_id (Sim.fault "140") = inr (VStr "140")
  /\ snd out = inl AuthException
  /\ sessionid (self (fst out)) = VStr "old"
  /\ sent (fst out)
     = [ {| req_url := "https://api.example.com/XMLAPI;jsessionid=old";
            req_data := VStr "<Envelope><Body><SelectRecipientData><LIST_ID>7</LIST_ID><EMAIL>a@b.c</EMAIL></SelectRecipientData></Body></Envelope>";
            req_headers := xml_headers |};
         {| req_url := "https://api.example.com/XMLAPI";
            req_data := VStr "<Envelope><Body><Login><USERNAME>u</USERNAME><PASSWORD>p</PASSWORD></Login></Body></Envelope>";
            req_headers := xml_headers |} ].
Proof. repeat split. Qed.

(** A failed login: the reply carries a fault other than 140 next to
    its [RESULT]. *)
Lemma auth_failure_returns_result_witness :
  let st := Sim.start Sim.client [] (Sim.reply Sim.doc_fault_145) in
  exists st1,
    _submit_request 2 (login_payload Sim.client) false true false st
    = (st1, inr (VDict [(SStr "SUCCESS", VStr "false")], false))
    /\ self st1 = self st.
Proof.
  intro st.
  destruct (auth_failure_returns_result (C := Sim.collaborators)
              1 (login_payload Sim.client) false false st _
              (VDict [(SStr "RESULT", VDict [(SStr "SUCCESS", VStr "false")]);
                      (SStr "Fault", Sim.fault "145")])
              (Sim.fault "145") (VStr "145")
              (VDict [(SStr "SUCCESS", VStr "false")])
              eq_refl eq_refl eq_refl eq_refl eq_refl eq_refl)
    as (r & Hr & _ & Hw & Hself).
  injection Hr as <-.
  eexists. split; [exact (Hw eq_refl)|exact Hself].
Defined.

(** C2, as stated, fails: what the suppressed failure returns is the
    [RESULT] sub-tree, not the response body tree. *)
Lemma auth_failure_counterexample :
  let st := Sim.start Sim.client [] (Sim.reply Sim.doc_fault_145) in
  let x := login_payload Sim.client in
  let body := VDict [(SStr "RESULT", VDict [(SStr "SUCCESS", VStr "false")]);
                     (SStr "Fault", Sim.fault "145")] in
  snd (exchange x true false st) = inr body
  /\ snd (_submit_request 2 x false true false st)
     = inr (VDict [(SStr "SUCCESS", VStr "false")], false)
  /\ snd (_submit_request 2 x false true false st) <> inr (body, false).
Proof. repeat split. discriminate. Qed.

(** A fault other than 140 on an ordinary request. *)
Lemma remote_fault_raised_witness :
  let st := Sim.start Sim.client [] (Sim.reply Sim.doc_fault_145) in
  let x := Sim.select_recipient in
  exists st1,
    _submit_request 2 x true false false st
    = (st1, inl (ResponseException (Sim.fault "145")))
    /\ self st1 = self st
    /\ exists xml,
        request_body x false = inr xml
        /\ sent st1 = sent st ++ [first_request (self st) xml false].
Proof.
  intros st x. eexists.
  apply (remote_fault_raised (C := Sim.collaborators)
           1 x true false st _
           (VDict [(SStr "RESULT", VDict [(SStr "SUCCESS", VStr "false")]);
                   (SStr "Fault", Sim.fault "145")])
           (Sim.fault "145") (VStr "145"));
    try reflexivity.
  left. reflexivity.
Defined.


(** The first request of an ordinary submission and of a login. *)
Lemma submit_target_url_witness :
  let st := Sim.start Sim.client [] (Sim.reply Sim.doc_success) in
  (exists rest,
     sent (fst (_submit_request 2 Sim.select_recipient true false false st))
     = {| req_url := "https://api.example.com/XMLAPI;jsessionid=old";
          req_data := VStr "<Envelope><Body><SelectRecipientData><LIST_ID>7</LIST_ID><EMAIL>a@b.c</EMAIL></SelectRecipientData></Body></Envelope>";
          req_headers := xml_headers |} :: rest)
  /\ (exists rest,
        sent (fst (_submit_request 2 (login_payload Sim.client)
                     false true false st))
        = {| req_url := "https://api.example.com/XMLAPI";
             req_data := VStr "<Envelope><Body><Login><USERNAME>u</USERNAME><PASSWORD>p</PASSWORD></Login></Body></Envelope>";
             req_headers := xml_headers |} :: rest).
Proof.
  intro st. split.
  - exact (proj1 (submit_target_url (C := Sim.collaborators)
                    1 Sim.select_recipient true false false st _ eq_refl)).
  - exact (proj1 (submit_target_url (C := Sim.collaborators)
                    1 (login_payload Sim.client) false true false st _
                    eq_refl)).
Defined.

(** [logout] on an expired session: the raw document reaches the
    encoder on the second attempt. *)
Lemma raw_retry_reencodes_witness :
  let st := Sim.start Sim.client
              [Sim.reply Sim.doc_expired; Sim.reply Sim.doc_login_ok]
              (Sim.reply Sim.doc_success) in
  exists st2, logout 2 st = (st2, inl AttributeError).
Proof.
  intro st. eexists.
  refine (proj1 (proj2 (proj2
            (raw_retry_reencodes (C := Sim.collaborators)
               0 Sim.raw_logout false st _
               (VDict [(SStr "RESULT", VDict [(SStr "SUCCESS", VStr "FALSE")]);
                       (SStr "Fault", Sim.fault "140")])
               (Sim.fault "140") (VStr "140") _ (VStr "abc123")
               eq_refl eq_refl eq_refl eq_refl eq_refl eq_refl)))
            AttributeError eq_refl).
Defined.

(** A failure reply without [Fault], and a failed login whose reply
    carries only a [Fault]. *)
Lemma bare_lookup_errors_witness :
  (exists st1,
     _submit_request 2 Sim.select_recipient true false false
       (Sim.start Sim.client [] (Sim.reply Sim.doc_no_fault))
     = (st1, inl (KeyError (SStr "Fault"))))
  /\ (exists st1,
        _submit_request 2 (login_payload Sim.client) false true false
          (Sim.start Sim.client [] (Sim.reply Sim.doc_fault_only))
        = (st1, inl (KeyError (SStr "RESULT")))).
Proof.
  split; eexists.
  - refine (proj1 (bare_lookup_errors (C := Sim.collaborators)
                     1 Sim.select_recipient true false false
                     (Sim.start Sim.client [] (Sim.reply Sim.doc_no_fault)) _
                     [(SStr "RESULT", VDict [(SStr "SUCCESS", VStr "false")])]
                     eq_refl) eq_refl eq_refl).
  - refine (proj2 (bare_lookup_errors (C := Sim.collaborators)
                     1 (login_payload Sim.client) false true false
                     (Sim.start Sim.client [] (Sim.reply Sim.doc_fault_only)) _
                     [(SStr "Fault", Sim.fault "145")]
                     eq_refl)
              (Sim.fault "145") (VStr "145")
              eq_refl eq_refl eq_refl eq_refl eq_refl).
Defined.

(** C6, as stated, fails: a client built from a token and no
    credentials meets the [errorid] 140 fault; no login exchange takes
    place, yet the token is overwritten with [None] and the payload is
    resubmitted under it. *)
Lemma token_overwritten_counterexample :
  let w := {| Sim.queue := [Sim.reply Sim.doc_expired];
              Sim.fallback := Sim.reply Sim.doc_success |} in
  let st := fst (__init__ 2 w Sim.endpoint VNone VNone (VStr "old")) in
  let out := _submit_request 2 Sim.select_recipient true false false st in
  self st = Sim.anonymous
  /\ sent st = []
  /\ sessionid (self (fst out)) = VNone
  /\ map req_url (sent (fst out))
     = [ "https://api.example.com/XMLAPI;jsessionid=old";
         "https://api.example.com/XMLAPI;jsessionid=None" ]
  /\ snd out = inr (VDict [(SStr "SUCCESS", VStr "TRUE")], true).
Proof. repeat split. Qed.

(** * Further properties of the code *)

(** ** Post-processing beyond well-shaped trees *)

Lemma lookup_none_setitem (d : dict) (k : scalar) (v : value) :
  Dict.lookup d k = None -> Dict.setitem d k v = d ++ [(k, v)].
Proof.
  induction d as [|[k0 v0] d IH]; simpl; [reflexivity|].
  destruct (scalar_eqb k0 k); [discriminate|].
  intro H. now rewrite (IH H).
Qed.

Lemma lookup_app_none (d d' : dict) (k : scalar) :
  Dict.lookup d k = None ->
  Dict.lookup (d ++ d') k = Dict.lookup d' k.
Proof.
  induction d as [|[k0 v0] d IH]; simpl; [reflexivity|].
  destruct (scalar_eqb k0 k); [discriminate|exact IH].
Qed.

Lemma lookup_not_in (d : dict) (k : scalar) :
  ~ In k (Dict.keys d) -> Dict.lookup d k = None.
Proof.
  unfold Dict.keys.
  induction d as [|[k0 v0] d IH]; simpl; [reflexivity|].
  intro H. destruct (scalar_eqb k0 k) eqn:E.
  - apply scalar_eqb_eq in E. subst. exfalso. apply H. now left.
  - apply IH. intro Hin. apply H. now right.
Qed.

(** Pairs with distinct names, none of them in the mapping yet, are
    added at its end in their order. *)
Lemma fold_setitem_distinct (es : list (scalar * value)) :
  forall out,
    NoDup (map fst es) ->
    (forall k, In k (map fst es) -> Dict.lookup out k = None) ->
    fold_left (fun o e => Dict.setitem o (fst e) (snd e)) es out = out ++ es.
Proof.
  induction es as [|[k v] es IH]; intros out Hnd Hout; simpl.
  - now rewrite app_nil_r.
  - inversion Hnd as [|? ? Hk Hnd']; subst.
    rewrite (lookup_none_setitem out k v (Hout k (or_introl eq_refl))).
    rewrite IH; [now rewrite <- app_assoc|exact Hnd'|].
    intros k' Hin.
    rewrite (lookup_app_none out _ k' (Hout k' (or_intror Hin))).
    simpl. destruct (scalar_eqb k k') eqn:E; [|reflexivity].
    apply scalar_eqb_eq in E. subst. contradiction.
Qed.

Lemma length_setitem (d : dict) (k : scalar) (v : value) :
  List.length (Dict.setitem d k v) <= S (List.length d).
Proof.
  induction d as [|[k0 v0] d IH]; simpl; [lia|].
  destruct (scalar_eqb k0 k); simpl; lia.
Qed.

Lemma length_fold_setitem (es : list (scalar * value)) :
  forall out,
    List.length (fold_left (fun o e => Dict.setitem o (fst e) (snd e)) es out)
    <= List.length out + List.length es.
Proof.
  induction es as [|e es IH]; intro out; simpl; [lia|].
  specialize (IH (Dict.setitem out (fst e) (snd e))).
  pose proof (length_setitem out (fst e) (snd e)). lia.
Qed.

(** X1: whenever the method returns, its argument was a mapping and the
    result is that mapping with the same keys in the same order and
    every entry other than [COLUMNS] untouched. *)
Theorem sanitize_touches_only_COLUMNS (data out : value) :
  _sanitize_columns_in_api_result data = inr out ->
  exists d d',
    data = VDict d /\ out = VDict d'
    /\ Dict.keys d' = Dict.keys d
    /\ forall k, k <> SStr "COLUMNS" -> Dict.lookup d' k = Dict.lookup d k.
Proof.
  unfold _sanitize_columns_in_api_result.
  destruct data as [a|d|l]; try discriminate.
  cbn [py_get].
  destruct (Dict.lookup d (SStr "COLUMNS")) as [c|] eqn:Hc; cbn [rbind ok].
  - destruct (py_get c "COLUMN" (VList [])) as [e|columns]; [discriminate|].
    cbn [rbind].
    destruct (py_len columns) as [e|len]; [discriminate|]. cbn [rbind].
    destruct (len <? 1)%Z.
    + intro H. injection H as <-. now exists d, d.
    + match goal with
      | |- rbind ?m _ = _ -> _ => destruct m as [e|o]; [discriminate|]
      end.
      cbn [rbind py_setitem ok]. intro H. injection H as <-.
      exists d, (Dict.setitem d (SStr "COLUMNS") (VDict o)).
      repeat split.
      * exact (keys_setitem_present d _ _ _ Hc).
      * intros k Hk. now apply lookup_setitem_other.
  - cbn [py_get Dict.lookup rbind ok py_len List.length].
    intro H. injection H as <-. now exists d, d.
Qed.

Lemma sanitize_touches_only_COLUMNS_witness :
  let data := VDict [(SStr "SUCCESS", VStr "TRUE");
                     (SStr "COLUMNS",
                      VDict [(SStr "COLUMN",
                              VDict [(SStr "NAME", VStr "City");
                                     (SStr "VALUE", VStr "Oslo")])]);
                     (SStr "EMAIL", VStr "a@b.c")] in
  exists d d',
    data = VDict d
    /\ VDict [(SStr "SUCCESS", VStr "TRUE");
              (SStr "COLUMNS", VDict [(SStr "City", VStr "Oslo")]);
              (SStr "EMAIL", VStr "a@b.c")] = VDict d'
    /\ Dict.keys d' = Dict.keys d
    /\ forall k, k <> SStr "COLUMNS" -> Dict.lookup d' k = Dict.lookup d k.
Proof.
  intro data. exact (sanitize_touches_only_COLUMNS data _ eq_refl).
Defined.

(** X2: for a [COLUMNS.COLUMN] sub-tree that reads as the non-empty
    sequence of pairs [es], the flat mapping put in its place gives each
    name the value of its last pair, has at most as many entries as
    there are pairs, and is the sequence itself when the names are
    distinct. *)
Theorem sanitize_last_value_wins (d c : dict) (columns : value)
    (es : list (scalar * value)) :
  Dict.lookup d (SStr "COLUMNS") = Some (VDict c) ->
  Dict.lookup c (SStr "COLUMN") = Some columns ->
  entries_of columns = Some es ->
  es <> [] ->
  exists flat,
    _sanitize_columns_in_api_result (VDict d)
    = inr (VDict (Dict.setitem d (SStr "COLUMNS") (VDict flat)))
    /\ (forall n, Dict.lookup flat n = last_named es n)
    /\ List.length flat <= List.length es
    /\ (NoDup (map fst es) -> flat = es).
Proof.
  intros Hc Hcol Hes Hne. exists (flat_mapping es).
  split; [|split; [|split]].
  - rewrite sanitize_refines.
    + unfold spec_postprocess. cbn [value_at]. rewrite Hc, Hcol, Hes.
      destruct es; [contradiction|reflexivity].
    + unfold well_shaped. now rewrite Hc, Hcol, Hes.
  - apply flat_mapping_lookup.
  - exact (length_fold_setitem es []).
  - intro Hnd. unfold flat_mapping.
    now rewrite (fold_setitem_distinct es [] Hnd).
Qed.

Lemma sanitize_last_value_wins_witness :
  let column n v := VDict [(SStr "NAME", VStr n); (SStr "VALUE", VStr v)] in
  let columns := VList [column "City" "Oslo"; column "City" "Bergen"] in
  exists flat,
    _sanitize_columns_in_api_result
      (VDict [(SStr "COLUMNS", VDict [(SStr "COLUMN", columns)])])
    = inr (VDict [(SStr "COLUMNS", VDict flat)])
    /\ Dict.lookup flat (SStr "City") = Some (VStr "Bergen")
    /\ List.length flat <= 2.
Proof.
  intros column columns.
  destruct (sanitize_last_value_wins
              [(SStr "COLUMNS", VDict [(SStr "COLUMN", columns)])]
              [(SStr "COLUMN", columns)] columns
              [(SStr "City", VStr "Oslo"); (SStr "City", VStr "Bergen")]
              eq_refl eq_refl eq_refl)
    as (flat & Hs & Hl & Hlen & _); [discriminate|].
  exists flat. split; [exact Hs|]. split; [exact (Hl (SStr "City"))|exact Hlen].
Defined.

Lemma store_columns_missing (pre post : list value) (col : dict)
    (es : list (scalar * value)) (out : dict) (k : string) :
  entries_of_list pre = Some es ->
  store_column (fold_left (fun o e => Dict.setitem o (fst e) (snd e)) es out)
    (VDict col) = inl (KeyError (SStr k)) ->
  store_columns out (pre ++ VDict col :: post) = inl (KeyError (SStr k)).
Proof.
  revert es out. induction pre as [|column pre IH]; intros es out; simpl.
  - intro H. injection H as <-. simpl. now intros ->.
  - destruct (entry_of column) as [e|] eqn:He; [|discriminate].
    destruct (entries_of_list pre) as [es'|] eqn:Hp; [|discriminate].
    intro H. injection H as <-. simpl.
    rewrite (store_column_entry out column e He). cbn [rbind ok].
    now apply IH.
Qed.

(** X3: in a sequence of columns, the first one that is a mapping without
    [VALUE] makes the method raise [KeyError('VALUE')], also when [NAME]
    is missing too; one with [VALUE] but without [NAME] makes it raise
    [KeyError('NAME')]. *)
Theorem sanitize_incomplete_column (d c col : dict) (pre post : list value)
    (es : list (scalar * value)) :
  Dict.lookup d (SStr "COLUMNS") = Some (VDict c) ->
  Dict.lookup c (SStr "COLUMN") = Some (VList (pre ++ VDict col :: post)) ->
  entries_of_list pre = Some es ->
  (Dict.lookup col (SStr "VALUE") = None ->
   _sanitize_columns_in_api_result (VDict d) = inl (KeyError (SStr "VALUE")))
  /\ (Dict.lookup col (SStr "VALUE") <> None ->
      Dict.lookup col (SStr "NAME") = None ->
      _sanitize_columns_in_api_result (VDict d) = inl (KeyError (SStr "NAME"))).
Proof.
  intros Hc Hcol Hpre.
  assert (Hlen : (Z.of_nat (List.length (pre ++ VDict col :: post)) <? 1)%Z
                 = false).
  { apply Z.ltb_ge. rewrite length_app. simpl List.length. lia. }
  assert (Hrun : forall k,
             store_column
               (fold_left (fun o e => Dict.setitem o (fst e) (snd e)) es [])
               (VDict col) = inl (KeyError (SStr k)) ->
             _sanitize_columns_in_api_result (VDict d)
             = inl (KeyError (SStr k))).
  { intros k Hk. unfold _sanitize_columns_in_api_result.
    cbn [py_get]. rewrite Hc. cbn [rbind ok py_get]. rewrite Hcol.
    cbn [rbind ok py_len]. rewrite Hlen. cbn [py_iter rbind ok].
    now rewrite (store_columns_missing pre post col es [] k Hpre Hk). }
  split.
  - intro Hv. apply Hrun. unfold store_column, py_getitem. now rewrite Hv.
  - intros Hv Hn. apply Hrun. unfold store_column, py_getitem.
    destruct (Dict.lookup col (SStr "VALUE")); [|contradiction].
    cbn [rbind ok]. now rewrite Hn.
Qed.

Lemma sanitize_incomplete_column_witness :
  _sanitize_columns_in_api_result
    (VDict [(SStr "COLUMNS",
             VDict [(SStr "COLUMN",
                     VList [VDict [(SStr "NAME", VStr "a");
                                   (SStr "VALUE", VStr "1")];
                            VDict [(SStr "OTHER", VStr "x")]])])])
  = inl (KeyError (SStr "VALUE"))
  /\ _sanitize_columns_in_api_result
       (VDict [(SStr "COLUMNS",
                VDict [(SStr "COLUMN",
                        VList [VDict [(SStr "VALUE", VStr "1")];
                               VDict [(SStr "NAME", VStr "a");
                                      (SStr "VALUE", VStr "1")]])])])
     = inl (KeyError (SStr "NAME")).
Proof.
  split.
  - refine (proj1 (sanitize_incomplete_column
                     [(SStr "COLUMNS",
                       VDict [(SStr "COLUMN",
                               VList [VDict [(SStr "NAME", VStr "a");
                                             (SStr "VALUE", VStr "1")];
                                      VDict [(SStr "OTHER", VStr "x")]])])]
                     [(SStr "COLUMN",
                       VList [VDict [(SStr "NAME", VStr "a");
                                     (SStr "VALUE", VStr "1")];
                              VDict [(SStr "OTHER", VStr "x")]])]
                     [(SStr "OTHER", VStr "x")]
                     [VDict [(SStr "NAME", VStr "a"); (SStr "VALUE", VStr "1")]]
                     [] [(SStr "a", VStr "1")] eq_refl eq_refl eq_refl)
              eq_refl).
  - refine (proj2 (sanitize_incomplete_column
                     [(SStr "COLUMNS",
                       VDict [(SStr "COLUMN",
                               VList [VDict [(SStr "VALUE", VStr "1")];
                                      VDict [(SStr "NAME", VStr "a");
                                             (SStr "VALUE", VStr "1")]])])]
                     [(SStr "COLUMN",
                       VList [VDict [(SStr "VALUE", VStr "1")];
                              VDict [(SStr "NAME", VStr "a");
                                     (SStr "VALUE", VStr "1")]])]
                     [(SStr "VALUE", VStr "1")] []
                     [VDict [(SStr "NAME", VStr "a"); (SStr "VALUE", VStr "1")]]
                     [] eq_refl eq_refl eq_refl)
              _ eq_refl).
    discriminate.
Defined.

(** ** Columns built from a mapping *)

Lemma entry_of_column_entry (kv : scalar * value) :
  entry_of (column_entry kv) = Some kv.
Proof. now destruct kv. Qed.

Lemma entries_of_column_entries (d : dict) :
  entries_of_list (map column_entry d) = Some d.
Proof.
  induction d as [|kv d IH]; [reflexivity|].
  cbn [map entries_of_list]. now rewrite entry_of_column_entry, IH.
Qed.

(** X4: on a mapping [_data_to_columns] returns one [{NAME, VALUE}]
    mapping per item, in the order of the items; on any other object its
    assertion fails. *)
Theorem data_to_columns_shape (data : value) :
  match data with
  | VDict d =>
      exists cols,
        _data_to_columns data = inr (VList cols)
        /\ List.length cols = List.length d
        /\ entries_of_list cols = Some d
  | _ =>
      _data_to_columns data
      = inl (AssertionError "Data parameter must have a callable called items")
  end.
Proof.
  destruct data as [a|d|l]; try reflexivity.
  exists (map column_entry d). split; [reflexivity|].
  split; [apply length_map|apply entries_of_column_entries].
Qed.

(** X5: the columns built from a mapping with distinct keys are turned
    back into that mapping by the post-processing of a result that holds
    them at [COLUMNS.COLUMN]; for the empty mapping the result is left
    as it is, with its empty [COLUMN] list. *)
Theorem columns_round_trip (r d : dict) (cols : value) :
  _data_to_columns (VDict d) = inr cols ->
  Dict.lookup r (SStr "COLUMNS") = Some (VDict [(SStr "COLUMN", cols)]) ->
  NoDup (Dict.keys d) ->
  _sanitize_columns_in_api_result (VDict r)
  = inr (VDict match d with
               | [] => r
               | _ => Dict.setitem r (SStr "COLUMNS") (VDict d)
               end).
Proof.
  intros Hcols Hr Hnd. injection Hcols as <-.
  rewrite sanitize_refines.
  - unfold spec_postprocess. cbn [value_at]. rewrite Hr.
    cbn [Dict.lookup scalar_eqb String.eqb Ascii.eqb Bool.eqb value_at
           entries_of].
    simpl Dict.lookup. cbn [value_at entries_of].
    rewrite entries_of_column_entries.
    destruct d as [|kv d]; [reflexivity|].
    unfold flat_mapping.
    now rewrite (fold_setitem_distinct (kv :: d) [] Hnd).
  - unfold well_shaped. rewrite Hr. simpl Dict.lookup.
    cbn [entries_of]. now rewrite entries_of_column_entries.
Qed.

Lemma columns_round_trip_witness :
  let d := [(SStr "City", VStr "Oslo"); (SStr "Zip", VStr "0150")] in
  exists cols,
    _data_to_columns (VDict d) = inr cols
    /\ _sanitize_columns_in_api_result
         (VDict [(SStr "SUCCESS", VStr "TRUE");
                 (SStr "COLUMNS", VDict [(SStr "COLUMN", cols)])])
       = inr (VDict [(SStr "SUCCESS", VStr "TRUE");
                     (SStr "COLUMNS", VDict d)]).
Proof.
  intro d. eexists. split; [reflexivity|].
  refine (columns_round_trip
            [(SStr "SUCCESS", VStr "TRUE");
             (SStr "COLUMNS", VDict [(SStr "COLUMN", _)])] d _
            eq_refl eq_refl _).
  repeat constructor; simpl; intuition discriminate.
Defined.

(** ** Transport, decoding and the bound on requests *)

Section ProtocolMore.

Context {W : Type} {C : Collaborators W}.

Implicit Types (st : state W) (x body : value) (retry auth raw : bool)
  (n : nat).

(** The state after the request of a submission has been posted. *)
Lemma exchange_posted x auth raw st xml w (r : result Response) :
  request_body x raw = inr xml ->
  requests_post (net st) (first_request (self st) xml auth) = (w, r) ->
  exchange x auth raw st
  = (let st1 := Build_state (self st) w
                  (sent st ++ [first_request (self st) xml auth]) in
     match r with
     | inl e => (st1, inl e)
     | inr resp =>
         match raise_for_status resp with
         | inl e => (st1, inl e)
         | inr _ =>
             match ConvertXmlToDict (content resp) with
             | inl e => (st1, inl e)
             | inr tree =>
                 match py_get tree "Envelope" (VDict []) with
                 | inl e => (st1, inl e)
                 | inr envelope => (st1, py_get envelope "Body" VNone)
                 end
             end
         end
     end).
Proof.
  intros Hx Hp. unfold exchange, bind, lift, get_self, post.
  rewrite Hx. fold (first_request (self st) xml auth). rewrite Hp.
  destruct r as [e|resp]; [reflexivity|].
  destruct (raise_for_status resp) as [e|[]]; [reflexivity|].
  destruct (ConvertXmlToDict (content resp)) as [e|tree]; [reflexivity|].
  now destruct (py_get tree "Envelope" (VDict [])).
Qed.

(** X6: a failure of the transport is never retried: when the post
    raises, or the reply has a status from 400 to 599, that error
    surfaces after the single request, whatever the flags and whatever
    the body of the reply. *)
Theorem transport_failure_surfaces n x retry auth raw st xml w
    (r : result Response) :
  request_body x raw = inr xml ->
  requests_post (net st) (first_request (self st) xml auth) = (w, r) ->
  let st1 := Build_state (self st) w
               (sent st ++ [first_request (self st) xml auth]) in
  (forall e, r = inl e ->
             _submit_request (S n) x retry auth raw st = (st1, inl e))
  /\ (forall resp,
        r = inr resp ->
        (400 <= status_code resp < 600)%Z ->
        _submit_request (S n) x retry auth raw st
        = (st1, inl (HTTPError (status_code resp)))).
Proof.
  intros Hx Hp st1. split.
  - intros e ->. rewrite submit_step, (exchange_posted _ _ _ _ _ _ _ Hx Hp).
    reflexivity.
  - intros resp -> [Hlo Hhi].
    rewrite submit_step, (exchange_posted _ _ _ _ _ _ _ Hx Hp).
    unfold raise_for_status.
    apply Z.leb_le in Hlo. apply Z.ltb_lt in Hhi. rewrite Hlo, Hhi.
    reflexivity.
Qed.

(** X7: when the encoder raises on the payload, the error surfaces,
    nothing is posted and the state is untouched. *)
Theorem encoder_failure_posts_nothing n x retry auth st (e : exn) :
  ConvertDictToXml x = inl e ->
  _submit_request (S n) x retry auth false st = (st, inl e).
Proof.
  intro Hx. rewrite submit_step. unfold exchange, request_body.
  cbn [negb]. rewrite Hx. reflexivity.
Qed.

(** X8: a reply that decodes to a document without a mapping at
    [Envelope.Body] makes the routine raise [AttributeError] after its
    single request. *)
Theorem missing_body_raises n x retry auth raw st xml w resp tree :
  request_body x raw = inr xml ->
  requests_post (net st) (first_request (self st) xml auth) = (w, inr resp) ->
  raise_for_status resp = inr tt ->
  ConvertXmlToDict (content resp) = inr tree ->
  body_mapping tree = None ->
  _submit_request (S n) x retry auth raw st
  = (Build_state (self st) w (sent st ++ [first_request (self st) xml auth]),
     inl AttributeError).
Proof.
  intros Hx Hp Hs Ht Hb.
  rewrite submit_step, (exchange_posted _ _ _ _ _ _ _ Hx Hp), Hs, Ht.
  revert Hb. unfold body_mapping. cbn [value_at].
  destruct tree as [a|t|l]; try reflexivity.
  cbn [py_get].
  destruct (Dict.lookup t (SStr "Envelope")) as [env|]; cbn [ok].
  - destruct env as [a|env|l]; try reflexivity.
    cbn [py_get value_at].
    destruct (Dict.lookup env (SStr "Body")) as [b|]; cbn [ok].
    + destruct b as [a|b|l]; try reflexivity. discriminate.
    + reflexivity.
  - reflexivity.
Qed.

(** X9: a response classified as success always has a mapping at
    [RESULT]; the routine returns its post-processing with the flag
    [True] after that single exchange, with the instance unchanged, or
    raises what the post-processing raises. *)
Theorem success_returns_processed_result n x retry auth raw st st1 body :
  exchange x auth raw st = (st1, inr body) ->
  classify_success body = inr true ->
  exists res,
    value_at body ["RESULT"] = Some (VDict res)
    /\ _submit_request (S n) x retry auth raw st
       = (st1, match _sanitize_columns_in_api_result (VDict res) with
               | inl e => inl e
               | inr data => inr (data, true)
               end)
    /\ self st1 = self st.
Proof.
  intros He Hc.
  destruct (exchange_ok_inv _ _ _ _ _ _ He) as (xml & _ & Hself & _).
  rewrite (submit_success _ _ _ _ _ _ _ _ He Hc).
  revert Hc. unfold classify_success, return_result.
  destruct body as [a|b|l]; try discriminate.
  cbn [py_get py_getitem value_at].
  destruct (Dict.lookup b (SStr "RESULT")) as [r|]; cbn [rbind ok].
  - destruct r as [a|res|l]; try discriminate.
    intros _. exists res. split; [reflexivity|]. split; [|exact Hself].
    now destruct (_sanitize_columns_in_api_result (VDict res)).
  - discriminate.
Qed.

Lemma exchange_length x auth raw st :
  List.length (sent (fst (exchange x auth raw st)))
  <= List.length (sent st) + 1.
Proof.
  destruct (exchange x auth raw st) as [st1 r] eqn:He. cbn [fst].
  destruct (exchange_inv _ _ _ _ _ _ He)
    as [(e & _ & -> & _)|(xml & _ & _ & ->)]; [lia|].
  rewrite length_app. simpl. lia.
Qed.

Lemma submit_no_retry_length n x auth raw st :
  List.length (sent (fst (_submit_request (S n) x false auth raw st)))
  <= List.length (sent st) + 1.
Proof.
  rewrite submit_no_retry.
  destruct (submit_once x auth raw st) as [st3 r] eqn:Hs.
  destruct (submit_once_inv _ _ _ _ _ _ Hs) as (r0 & He & _).
  pose proof (exchange_length x auth raw st) as H.
  now rewrite He in H.
Qed.

Lemma login_length n st :
  List.length (sent (fst (login (S n) st))) <= List.length (sent st) + 1.
Proof.
  destruct (has_credentials (self st)) eqn:Hc.
  - rewrite (login_with_credentials _ _ Hc).
    pose proof (submit_no_retry_length n (login_payload (self st)) true false
                  st) as H.
    destruct (_submit_request (S n) (login_payload (self st)) false true
                false st) as [st1 [e|[response [|]]]]; cbn [fst] in *; auto.
    destruct (py_get response "SESSIONID" VNone) as [e|sid]; auto.
    now destruct (truthy sid).
  - rewrite (login_without_credentials _ _ Hc). cbn [fst]. lia.
Qed.

(** X10: one call of the routine posts at most three requests, at most
    one when [retry] is false; one call of [login] posts at most one. *)
Theorem at_most_three_requests n x retry auth raw st :
  List.length (sent (fst (_submit_request (S (S n)) x retry auth raw st)))
  <= List.length (sent st) + (if retry then 3 else 1)
  /\ List.length (sent (fst (login (S n) st))) <= List.length (sent st) + 1.
Proof.
  split; [|apply login_length].
  destruct retry; [|apply submit_no_retry_length].
  rewrite submit_step.
  pose proof (exchange_length x auth raw st) as H1.
  destruct (exchange x auth raw st) as [st1 [e|body]]; cbn [fst] in *;
    [lia|].
  destruct (classify_success body) as [e|[|]]; cbn [fst]; try lia.
  destruct (py_getitem body "Fault") as [e|fault]; cbn [fst]; [lia|].
  destruct (fault_error_id fault) as [e|eid]; cbn [fst]; [lia|].
  destruct (eq_str_140 eid && true); [|destruct auth; cbn [fst]; lia].
  pose proof (login_length n st1) as H2.
  destruct (login (S n) st1) as [st2 [e|tok]]; cbn [fst] in *; [lia|].
  pose proof (submit_no_retry_length n x false false (store_token st2 tok))
    as H3.
  cbn [store_token sent] in H3. lia.
Qed.

(** X11: the nesting of the calls is bounded: the routine calls itself
    at most once and [login] never calls back into a retry, so from
    depth two on for the routine, and depth one on for [login], the
    result is the same at every depth. *)
Theorem recursion_depth_two n x retry auth raw st :
  _submit_request (S (S n)) x retry auth raw st
  = _submit_request 2 x retry auth raw st
  /\ login (S n) st = login 1 st
  /\ _submit_request (S n) x false auth raw st
     = _submit_request 1 x false auth raw st.
Proof.
  split; [apply fuel_two_suffices|]. split.
  - destruct (has_credentials (self st)) eqn:Hc.
    + rewrite !(login_with_credentials _ _ Hc). now rewrite !submit_no_retry.
    + now rewrite !(login_without_credentials _ _ Hc).
  - now rewrite !submit_no_retry.
Qed.

(** X12: construction posts at most one request, and none at all when a
    token is supplied or when the username or the password is missing;
    in the latter case it succeeds with the token [None]. *)
Theorem init_traffic n (w : W) (u : string) (un pw sid : value) :
  let r := __init__ (S n) w u un pw sid in
  List.length (sent (fst r)) <= 1
  /\ (truthy sid = true ->
      r = (Build_state {| url := u; username := un; password := pw;
                          sessionid := sid |} w [], inr tt))
  /\ (truthy sid = false ->
      truthy un && truthy pw = false ->
      r = (Build_state {| url := u; username := un; password := pw;
                          sessionid := VNone |} w [], inr tt)).
Proof.
  intro r. unfold r, __init__, bind, ret, set_sessionid.
  set (a := {| url := u; username := un; password := pw;
               sessionid := VNone |}).
  split; [|split].
  - destruct (truthy sid); [cbn; lia|].
    pose proof (login_length n (Build_state a w [])) as H.
    destruct (login (S n) (Build_state a w [])) as [st1 [e|tok]];
      cbn [fst sent] in *; simpl in H; lia.
  - intros ->. reflexivity.
  - intros -> Hc.
    rewrite (login_without_credentials (S n) (Build_state a w []) Hc).
    reflexivity.
Qed.

Lemma return_result_flag body (s : bool) (data : value) (b : bool) :
  return_result body s = inr (data, b) -> b = s.
Proof. intro H. now destruct (return_result_dict _ _ _ _ H). Qed.

Lemma submit_once_flag x raw st st' (data : value) (b : bool) :
  _submit_request 1 x false false raw st = (st', inr (data, b)) -> b = true.
Proof.
  rewrite submit_step.
  destruct (exchange x false raw st) as [st1 [e|body]]; [discriminate|].
  destruct (classify_success body) as [e|[|]]; [discriminate| |].
  - intro H. injection H as _ H. exact (return_result_flag _ _ _ _ H).
  - destruct (py_getitem body "Fault") as [e|fault]; [discriminate|].
    destruct (fault_error_id fault) as [e|eid]; [discriminate|].
    rewrite andb_false_r. discriminate.
Qed.

(** A submission that is not an authentication request and returns,
    returns the flag [True]. *)
Lemma submit_flag_true n x retry raw st st' (data : value) (b : bool) :
  _submit_request (S (S n)) x retry false raw st = (st', inr (data, b)) ->
  b = true.
Proof.
  rewrite fuel_two_suffices, submit_step.
  destruct (exchange x false raw st) as [st1 [e|body]]; [discriminate|].
  destruct (classify_success body) as [e|[|]]; [discriminate| |].
  - intro H. injection H as _ H. exact (return_result_flag _ _ _ _ H).
  - destruct (py_getitem body "Fault") as [e|fault]; [discriminate|].
    destruct (fault_error_id fault) as [e|eid]; [discriminate|].
    destruct (eq_str_140 eid && retry); [|discriminate].
    destruct (login 1 st1) as [st2 [e|tok]]; [discriminate|].
    apply submit_once_flag.
Qed.

Lemma submit_payload_flag_true n (payload : outcome value) st st'
    (data : value) (b : bool) :
  submit_payload (S (S n)) payload st = (st', inr (data, b)) -> b = true.
Proof.
  unfold submit_payload.
  destruct payload as [e|xml]; [discriminate|].
  destruct (_submit_request (S (S n)) xml true false false st)
    as [st1 [e|[d' b']]] eqn:Hs; [discriminate|].
  cbn [raised]. intro H. injection H as _ _ <-.
  exact (submit_flag_true _ _ _ _ _ _ _ _ Hs).
Qed.

(** X13: when a submission that is not an authentication request
    returns at all, its flag is [True]: every failure on that path is
    raised, so the flag an endpoint method hands back carries no
    information. *)
Theorem normal_return_means_success n x retry raw st :
  (forall st' data b,
     _submit_request (S (S n)) x retry false raw st = (st', inr (data, b)) ->
     b = true)
  /\ (forall payload st' data b,
        submit_payload (S (S n)) payload st = (st', inr (data, b)) ->
        b = true).
Proof.
  split.
  - intros st' data b. apply submit_flag_true.
  - intros payload st' data b. apply submit_payload_flag_true.
Qed.

End ProtocolMore.

(** ** Endpoint methods *)

Section EndpointFacts.

Context {W : Type} {C : Collaborators W}.

Lemma one_le_succ (k : nat) : (1 <=? Z.of_nat (S k))%Z = true.
Proof. apply Z.leb_le. lia. Qed.

Lemma one_le_length {A} (a : A) (l : list A) :
  (1 <=? Z.of_nat (List.length (a :: l)))%Z = true.
Proof. apply one_le_succ. Qed.

(** X14: [update_user] raises before anything is posted unless [data]
    is a non-empty mapping: [len] fails on an object without length, the
    first assertion fails on an empty container, the assertion of
    [_data_to_columns] fails on a non-empty object that is not a
    mapping; the state is untouched each time.  For a non-empty mapping
    it submits the payload whose [COLUMN] holds one entry per item. *)
Theorem update_user_needs_columns n (l e data : value) (st : state W) :
  (forall err, py_len data = inl err ->
               update_user n l e data st = (st, inl (Raised err)))
  /\ (py_len data = inr 0%Z ->
      update_user n l e data st
      = (st, inl (AssertionError
                    "Data parameter must contain at least one column/value pair")))
  /\ (forall len, py_len data = inr len -> (1 <= len)%Z ->
                  has_items data = false ->
                  update_user n l e data st
                  = (st, inl (AssertionError
                                "Data parameter must have a callable called items")))
  /\ (forall d, data = VDict d -> d <> [] ->
                exists xml,
                  update_user_payload l e data = inr xml
                  /\ value_at xml ["Envelope"; "Body"; "UpdateRecipient";
                                   "COLUMN"]
                     = Some (VList (map column_entry d))
                  /\ update_user n l e data st
                     = (let (st', r) :=
                          _submit_request n xml true false false st in
                        (st', raised r))).
Proof.
  unfold update_user, submit_payload, update_user_payload.
  split; [|split; [|split]].
  - intros err ->. reflexivity.
  - intros ->. reflexivity.
  - intros len -> Hlen Hitems. cbn [raised obind].
    apply Z.leb_le in Hlen. rewrite Hlen. cbn [py_assert obind].
    unfold _data_to_columns. now rewrite Hitems.
  - intros d -> Hd. destruct d as [|kv d]; [contradiction|].
    cbn [py_len raised obind ok]. rewrite one_le_length.
    eexists. split; [reflexivity|]. split; reflexivity.
Qed.

(** X15: [add_contact_to_contact_list] raises its [AssertionError],
    posting nothing, when the list id is falsy and [data] is falsy; a
    payload it builds carries the list id, carries [CONTACT_ID] exactly
    when the contact id is truthy, and carries [COLUMN] (one entry per
    item of [data]) exactly when the contact id is falsy and [data] is a
    non-empty mapping: never both. *)
Theorem add_contact_payload_shape n (cl cid data : value) (st : state W) :
  (truthy cl = false -> truthy data = false ->
   add_contact_to_contact_list n cl cid data st
   = (st, inl (AssertionError
                 "Contact_list_id or data parameter must be set")))
  /\ (forall xml,
        add_contact_to_contact_list_payload cl cid data = inr xml ->
        let field k :=
          value_at xml ["Envelope"; "Body"; "AddContactToContactList"; k] in
        field "CONTACT_LIST_ID" = Some cl
        /\ field "CONTACT_ID" = (if truthy cid then Some cid else None)
        /\ field "COLUMN"
           = if truthy cid then None
             else match data with
                  | VDict (kv :: d) => Some (VList (map column_entry (kv :: d)))
                  | _ => None
                  end).
Proof.
  unfold add_contact_to_contact_list, submit_payload,
    add_contact_to_contact_list_payload, py_or.
  split.
  - intros Hcl Hdata. rewrite Hcl, Hdata. reflexivity.
  - intros xml.
    destruct (truthy cl) eqn:Hcl; destruct (truthy cid) eqn:Hcid;
      destruct data as [[|[|p|p]|[|ch s]]|[|kv d]|[|i l]];
      cbv zeta;
      cbn [truthy Z.eqb negb String.eqb py_len raised obind rbind ok
             List.length String.length];
      rewrite ?one_le_succ;
      cbn [Z.of_nat Z.leb Z.compare py_assert obind raised
             _data_to_columns has_items py_items ok];
      try discriminate;
      intro H; injection H as <-; repeat split; reflexivity.
Qed.

(** X16: the payload of [set_column_value] has [ACTION] 1 followed by
    [COLUMN_VALUE] whenever a value other than [None] is given, an empty
    string or zero included, and [ACTION] 0 without [COLUMN_VALUE]
    otherwise; [ACTION] keeps its place after [COLUMN_NAME]. *)
Theorem set_column_value_action (id col_name col_value : value) :
  exists xml,
    set_column_value_payload id col_name col_value = inr xml
    /\ value_at xml ["Envelope"; "Body"; "SetColumnValue"]
       = Some (VDict ([(SStr "LIST_ID", id); (SStr "COLUMN_NAME", col_name);
                       (SStr "ACTION",
                        VInt (if is_not_none col_value then 1 else 0))]
                      ++ (if is_not_none col_value
                          then [(SStr "COLUMN_VALUE", col_value)]
                          else []))).
Proof.
  unfold set_column_value_payload.
  destruct (is_not_none col_value); eexists; split; reflexivity.
Qed.

(** X17: [schedule_mailing] always sends [SCHEDULED] as formatted by
    [strftime] and [VISIBILITY] 1; [SEND_HTML] and [SEND_TEXT] are sent
    exactly when the argument equals 1, [SUBJECT] exactly when it is not
    [None], and [PRE_PROCESSING_HOURS] exactly when it is an integer
    from 1 to 24: any other value is dropped without an error. *)
Theorem schedule_mailing_optional_fields
    (template_id list_id mailing_name : value) (schedule_time : datetime)
    (send_html send_text subject hours : value) :
  exists xml,
    schedule_mailing_payload template_id list_id mailing_name schedule_time
      send_html send_text subject hours = inr xml
    /\ let field k :=
         value_at xml ["Envelope"; "Body"; "ScheduleMailing"; k] in
       field "SCHEDULED"
       = Some (VStr (strftime schedule_time "%m/%d/%Y %I:%M:%S %p"))
       /\ field "VISIBILITY" = Some (VInt 1)
       /\ field "SEND_HTML"
          = (if eq_int_1 send_html then Some (VInt 1) else None)
       /\ field "SEND_TEXT"
          = (if eq_int_1 send_text then Some (VInt 1) else None)
       /\ field "SUBJECT"
          = (if is_not_none subject then Some subject else None)
       /\ field "PRE_PROCESSING_HOURS"
          = match hours with
            | VInt z =>
                if (1 <=? z)%Z && (z <=? 24)%Z then Some (VInt z) else None
            | _ => None
            end.
Proof.
  unfold schedule_mailing_payload.
  assert (Hh : valid_pre_processing_hours hours
               = match hours with
                 | VInt z => (1 <=? z)%Z && (z <=? 24)%Z
                 | _ => false
                 end).
  { destruct hours as [[|z|s]|d|l]; try reflexivity. apply andb_comm. }
  assert (H1 : forall v, eq_int_1 v = true -> v = VInt 1).
  { intros [[|z|s]|d|l]; try discriminate. simpl. intro H.
    apply Z.eqb_eq in H. now subst. }
  destruct (eq_int_1 send_html) eqn:Hhtml;
    [rewrite (H1 _ Hhtml)|];
    (destruct (eq_int_1 send_text) eqn:Htext;
     [rewrite (H1 _ Htext)|]);
    destruct (is_not_none subject);
    rewrite Hh;
    destruct hours as [[|z|s]|d|l];
    try destruct ((1 <=? z)%Z && (z <=? 24)%Z);
    eexists; (split; [reflexivity|]); repeat split.
Qed.

(** X18: the [COLUMN] list of the payload of [add_user] starts with the
    [EMAIL] entry of the [email] argument, followed by one entry per
    item of [data]; a falsy [data] counts as the empty mapping, a truthy
    [data] that is not a mapping fails the assertion of
    [_data_to_columns]; and [add_recipient] is [add_user]. *)
Theorem add_user_columns (l e data : value) :
  match py_or data (VDict []) with
  | VDict d =>
      exists xml,
        add_user_payload l e data = inr xml
        /\ value_at xml ["Envelope"; "Body"; "AddRecipient"; "COLUMN"]
           = Some (VList (column_entry (SStr "EMAIL", e)
                          :: map column_entry d))
  | _ =>
      add_user_payload l e data
      = inl (AssertionError "Data parameter must have a callable called items")
  end
  /\ (forall n (st : state W),
        add_recipient n l e data st = add_user n l e data st).
Proof.
  split.
  - unfold add_user_payload.
    destruct (py_or data (VDict [])) as [a|d|li]; try reflexivity.
    eexists. split; reflexivity.
  - intros n st. unfold add_recipient, add_user, add_user_payload.
    assert (H : py_or (py_or data (VDict [])) (VDict [])
                = py_or data (VDict [])).
    { unfold py_or. destruct (truthy data) eqn:Ht; [now rewrite Ht|].
      reflexivity. }
    now rewrite H.
Qed.

(** X19: [remove_recipient] and [update_recipient] return [None]: they
    return exactly when [remove_user] and [update_user] return, which
    these do only with the flag [True], end in the same state, and let
    every exception through. *)
Theorem recipient_wrappers_return_none n (l e data : value)
    (st st' : state W) (v : value) :
  (remove_recipient (S (S n)) l e st = (st', inr v)
   <-> v = VNone
       /\ exists d, remove_user (S (S n)) l e st = (st', inr (d, true)))
  /\ (update_recipient (S (S n)) l e data st = (st', inr v)
      <-> v = VNone
          /\ exists d,
              update_user (S (S n)) l e data st = (st', inr (d, true)))
  /\ (forall err,
        remove_user (S (S n)) l e st = (st', inl err) ->
        remove_recipient (S (S n)) l e st = (st', inl err))
  /\ (forall err,
        update_user (S (S n)) l e data st = (st', inl err) ->
        update_recipient (S (S n)) l e data st = (st', inl err)).
Proof.
  unfold remove_recipient, update_recipient, discard, remove_user,
    update_user.
  split; [|split; [|split]].
  - destruct (submit_payload (S (S n)) (remove_user_payload l e) st)
      as [st1 [err|[d b]]] eqn:Hs.
    + split; [discriminate|]. intros [_ [d' H]]. discriminate.
    + rewrite (submit_payload_flag_true _ _ _ _ _ _ Hs). split.
      * intro H. injection H as <- <-. split; [reflexivity|now exists d].
      * intros [-> [d' H]]. now injection H as <- _.
  - destruct (submit_payload (S (S n)) (update_user_payload l e data) st)
      as [st1 [err|[d b]]] eqn:Hs.
    + split; [discriminate|]. intros [_ [d' H]]. discriminate.
    + rewrite (submit_payload_flag_true _ _ _ _ _ _ Hs). split.
      * intro H. injection H as <- <-. split; [reflexivity|now exists d].
      * intros [-> [d' H]]. now injection H as <- _.
  - now intros err ->.
  - now intros err ->.
Qed.

End EndpointFacts.

(** ** The further properties on the simulated network *)

(** A 503 reply whose body is the 140 fault: no login, no resubmission. *)
Lemma transport_failure_surfaces_witness :
  let unavailable := {| status_code := 503; content := Sim.doc_expired |} in
  let st := Sim.start Sim.client [] unavailable in
  _submit_request 2 Sim.select_recipient true false false st
  = (Build_state Sim.client
       {| Sim.queue := []; Sim.fallback := unavailable |}
       [first_request Sim.client
          (VStr "<Envelope><Body><SelectRecipientData><LIST_ID>7</LIST_ID><EMAIL>a@b.c</EMAIL></SelectRecipientData></Body></Envelope>")
          false],
     inl (HTTPError 503)).
Proof.
  intros unavailable st.
  refine (proj2 (transport_failure_surfaces (C := Sim.collaborators)
                   1 Sim.select_recipient true false false st _ _ _
                   eq_refl eq_refl)
            unavailable eq_refl _).
  simpl. lia.
Defined.

(** A string payload submitted without [raw_xml]. *)
Lemma encoder_failure_posts_nothing_witness :
  let st := Sim.start Sim.client [] (Sim.reply Sim.doc_success) in
  _submit_request 2 Sim.raw_logout true false false st
  = (st, inl AttributeError).
Proof.
  intro st.
  exact (encoder_failure_posts_nothing (C := Sim.collaborators)
           1 Sim.raw_logout true false st AttributeError eq_refl).
Defined.

(** An HTML page served with status 200. *)
Lemma missing_body_raises_witness :
  let page := Sim.reply SimX.doc_html in
  let st := Sim.start Sim.client [] page in
  _submit_request (C := SimX.collaborators) 2 Sim.select_recipient
    true false false st
  = (Build_state Sim.client {| Sim.queue := []; Sim.fallback := page |}
       [first_request (C := SimX.collaborators) Sim.client
          (VStr "<Envelope><Body><SelectRecipientData><LIST_ID>7</LIST_ID><EMAIL>a@b.c</EMAIL></SelectRecipientData></Body></Envelope>")
          false],
     inl AttributeError).
Proof.
  intros page st.
  exact (missing_body_raises (C := SimX.collaborators)
           1 Sim.select_recipient true false false st _ _ page _
           eq_refl eq_refl eq_refl eq_refl eq_refl).
Defined.

(** The recipient reply. *)
Lemma success_returns_processed_result_witness :
  let st := Sim.start Sim.client [] (Sim.reply Sim.doc_recipient) in
  exists res st1,
    _submit_request 2 Sim.select_recipient true false false st
    = (st1, match _sanitize_columns_in_api_result (VDict res) with
            | inl e => inl e
            | inr data => inr (data, true)
            end)
    /\ Dict.lookup res (SStr "EMAIL") = Some (VStr "a@b.c").
Proof.
  intro st.
  destruct (success_returns_processed_result (C := Sim.collaborators)
              1 Sim.select_recipient true false false st _ _
              eq_refl eq_refl)
    as (res & Hres & Hs & _).
  exists res. eexists. split; [exact Hs|].
  injection Hres as <-. reflexivity.
Defined.

(** Construction from a token, and from nothing at all. *)
Lemma init_traffic_witness :
  let w := {| Sim.queue := []; Sim.fallback := Sim.reply Sim.doc_login_ok |} in
  __init__ 2 w Sim.endpoint VNone VNone (VStr "old")
  = (Build_state Sim.anonymous w [], inr tt)
  /\ __init__ 2 w Sim.endpoint (VStr "u") VNone VNone
     = (Build_state {| url := Sim.endpoint; username := VStr "u";
                       password := VNone; sessionid := VNone |} w [],
        inr tt).
Proof.
  intro w. split.
  - exact (proj1 (proj2 (init_traffic (C := Sim.collaborators)
                           1 w Sim.endpoint VNone VNone (VStr "old")))
             eq_refl).
  - exact (proj2 (proj2 (init_traffic (C := Sim.collaborators)
                           1 w Sim.endpoint (VStr "u") VNone VNone))
             eq_refl eq_refl).
Defined.

(** A submission that returns after a retry. *)
Lemma normal_return_means_success_witness :
  let st := Sim.start Sim.client
              [Sim.reply Sim.doc_expired; Sim.reply Sim.doc_login_ok]
              (Sim.reply Sim.doc_success) in
  exists st' data b,
    _submit_request 2 Sim.select_recipient true false false st
    = (st', inr (data, b))
    /\ b = true.
Proof.
  intro st.
  destruct (_submit_request 2 Sim.select_recipient true false false st)
    as [st' [e|[data b]]] eqn:Hs; [discriminate|].
  exists st', data, b. split; [reflexivity|].
  exact (proj1 (normal_return_means_success (C := Sim.collaborators)
                  0 Sim.select_recipient true false st)
           st' data b Hs).
Defined.

(** Updates with no column, with a list of pairs, and with one column. *)
Lemma update_user_needs_columns_witness :
  let st := Sim.start Sim.client [] (Sim.reply Sim.doc_success) in
  update_user 2 (VInt 7) (VStr "a@b.c") (VDict []) st
  = (st, inl (AssertionError
                "Data parameter must contain at least one column/value pair"))
  /\ update_user 2 (VInt 7) (VStr "a@b.c") VNone st
     = (st, inl (Raised TypeError))
  /\ update_user 2 (VInt 7) (VStr "a@b.c") (VList [VStr "City"]) st
     = (st, inl (AssertionError
                   "Data parameter must have a callable called items"))
  /\ exists xml,
      update_user_payload (VInt 7) (VStr "a@b.c")
        (VDict [(SStr "City", VStr "Oslo")]) = inr xml
      /\ value_at xml ["Envelope"; "Body"; "UpdateRecipient"; "COLUMN"]
         = Some (VList [VDict [(SStr "NAME", VStr "City");
                               (SStr "VALUE", VStr "Oslo")]]).
Proof.
  intro st. split; [|split; [|split]].
  - exact (proj1 (proj2 (update_user_needs_columns (C := Sim.collaborators)
                           2 (VInt 7) (VStr "a@b.c") (VDict []) st))
             eq_refl).
  - exact (proj1 (update_user_needs_columns (C := Sim.collaborators)
                    2 (VInt 7) (VStr "a@b.c") VNone st)
             TypeError eq_refl).
  - refine (proj1 (proj2 (proj2
              (update_user_needs_columns (C := Sim.collaborators)
                 2 (VInt 7) (VStr "a@b.c") (VList [VStr "City"]) st)))
              1%Z eq_refl _ eq_refl).
    lia.
  - destruct (proj2 (proj2 (proj2
                (update_user_needs_columns (C := Sim.collaborators)
                   2 (VInt 7) (VStr "a@b.c")
                   (VDict [(SStr "City", VStr "Oslo")]) st)))
                [(SStr "City", VStr "Oslo")] eq_refl)
      as (xml & Hp & Hc & _); [discriminate|].
    exists xml. split; [exact Hp|exact Hc].
Defined.

(** A contact added by id, and a call with neither list nor data. *)
Lemma add_contact_payload_shape_witness :
  let st := Sim.start Sim.client [] (Sim.reply Sim.doc_success) in
  add_contact_to_contact_list 2 VNone VNone VNone st
  = (st, inl (AssertionError "Contact_list_id or data parameter must be set"))
  /\ exists xml,
      add_contact_to_contact_list_payload (VInt 9) (VInt 5)
        (VDict [(SStr "City", VStr "Oslo")]) = inr xml
      /\ value_at xml ["Envelope"; "Body"; "AddContactToContactList";
                       "CONTACT_ID"] = Some (VInt 5)
      /\ value_at xml ["Envelope"; "Body"; "AddContactToContactList";
                       "COLUMN"] = None.
Proof.
  intro st. split.
  - exact (proj1 (add_contact_payload_shape (C := Sim.collaborators)
                    2 VNone VNone VNone st)
             eq_refl eq_refl).
  - eexists. split; [reflexivity|].
    destruct (proj2 (add_contact_payload_shape (C := Sim.collaborators)
                       2 (VInt 9) (VInt 5)
                       (VDict [(SStr "City", VStr "Oslo")]) st)
                _ eq_refl)
      as (_ & Hid & Hcol).
    split; [exact Hid|exact Hcol].
Defined.

(** A removal that succeeds. *)
Lemma recipient_wrappers_return_none_witness :
  let st := Sim.start Sim.client [] (Sim.reply Sim.doc_success) in
  exists st', remove_recipient 2 (VInt 7) (VStr "a@b.c") st = (st', inr VNone).
Proof.
  intro st. eexists.
  apply (proj1 (recipient_wrappers_return_none (C := Sim.collaborators)
                  0 (VInt 7) (VStr "a@b.c") VNone st _ VNone)).
  split; [reflexivity|]. eexists. reflexivity.
Defined.

(** ** Classification, login failure and the stored token on the
    simulated network *)

(** A reply whose [SUCCESS] is upper-case, and one that is a failure. *)
Lemma submit_classifies_by_spec_witness :
  let ok_ := Sim.start Sim.client [] (Sim.reply Sim.doc_recipient) in
  let ko := Sim.start Sim.client [] (Sim.reply Sim.doc_fault_145) in
  (exists st1 data,
     _submit_request 2 Sim.select_recipient true false false ok_
     = (st1, inr (data, true)))
  /\ (exists st1,
        _submit_request 2 Sim.select_recipient true false false ko
        = (st1, inl (ResponseException (Sim.fault "145")))).
Proof.
  intros ok_ ko. split.
  - do 2 eexists.
    exact (proj1 (proj2 (submit_classifies_by_spec (C := Sim.collaborators)
                           1 Sim.select_recipient true false false ok_ _ _
                           eq_refl))
             eq_refl).
  - eexists.
    exact (proj1 (proj2 (proj2
             (submit_classifies_by_spec (C := Sim.collaborators)
                1 Sim.select_recipient true false false ko _ _ eq_refl)))
             eq_refl).
Defined.


(** An expired session whose resubmission is answered with another
    fault: the call raises, and the fresh token is stored all the
    same. *)
Lemma sessionid_written_by_retry_only_witness :
  let st := Sim.start Sim.client
              [Sim.reply Sim.doc_expired; Sim.reply Sim.doc_login_ok]
              (Sim.reply Sim.doc_fault_145) in
  let out := _submit_request 2 Sim.select_recipient true false false st in
  self (fst out) = with_sessionid Sim.client (VStr "abc123")
  /\ snd out = inl (ResponseException (Sim.fault "145")).
Proof.
  intros st out. split; [|reflexivity].
  exact (proj2 (proj2 (proj2
           (sessionid_written_by_retry_only (C := Sim.collaborators)
              0 Sim.select_recipient true false false st)))
           _ _ _ _ _ _ eq_refl eq_refl eq_refl eq_refl eq_refl eq_refl
           eq_refl).
Defined.
